(** * ApolloClient: people search, organization search, bulk enrichment

    A shallow embedding of [griptape/apollo/tools/apollo/tool.py].

    The three activities of [ApolloClient] build a JSON payload from the
    tool parameters, POST it with [requests], and transcribe the decoded
    JSON answer into a [ListArtifact] of [TextArtifact]s, or give back an
    [ErrorArtifact].  Python values are modelled by the type [pyval],
    Python dicts by insertion-ordered association lists, exceptions by a
    class and a message, and the body of each activity by a small
    state-and-exception monad whose state holds the client object, the
    local variable [response] of the running frame and the POST requests
    issued so far. *)

From Stdlib Require Import String Ascii List ZArith Bool.
From Stdlib Require Import DecimalString.
Import ListNotations.
Local Open Scope string_scope.
Local Open Scope Z_scope.

(** ** Strings *)

Module Str.

Definition nl : string := String (ascii_of_nat 10) EmptyString.
Definition bslash : string := String (ascii_of_nat 92) EmptyString.
Definition squote : ascii := ascii_of_nat 39.
Definition dquote : ascii := ascii_of_nat 34.

Definition spaces (n : nat) : string := String.concat EmptyString (repeat " " n).

(** [sep.join(l)] on a list of [str]. *)
Definition join (sep : string) (l : list string) : string := String.concat sep l.

(** A [str] is carried by its UTF-8 encoding.  A continuation byte is one
    of the bytes 128 to 191, which follow the first byte of a character
    beyond ASCII. *)
Definition is_continuation (c : ascii) : bool :=
  let n := nat_of_ascii c in
  (Nat.leb 128 n && Nat.leb n 191)%bool.

(** The characters of a [str], each as a one-character [str]: a byte with
    the continuation bytes that follow it. *)
Fixpoint chars (s : string) : list string :=
  match s with
  | EmptyString => []
  | String c s' =>
      match s' with
      | String c' _ =>
          if is_continuation c'
          then match chars s' with
               | x :: xs => String c x :: xs
               | [] => [String c EmptyString]
               end
          else String c EmptyString :: chars s'
      | EmptyString => [String c EmptyString]
      end
  end.

Fixpoint mem (c : ascii) (s : string) : bool :=
  match s with
  | EmptyString => false
  | String d s' => Ascii.eqb c d || mem c s'
  end.

(** [needle in hay]. *)
Fixpoint contains (needle hay : string) : bool :=
  prefix needle hay ||
  match hay with
  | EmptyString => false
  | String _ hay' => contains needle hay'
  end.

(** The whitespace characters, as [str.strip] and [str.isspace] know
    them, by the bytes of their encodings: U+0009 to U+000D, U+001C to
    U+001F and U+0020 on one byte; U+0085 and U+00A0 on two; U+1680,
    U+2000 to U+200A, U+2028, U+2029, U+202F, U+205F and U+3000 on
    three. *)
Definition space1 (a : ascii) : bool :=
  let n := nat_of_ascii a in
  (Nat.eqb n 32 || (Nat.leb 9 n && Nat.leb n 13) || (Nat.leb 28 n && Nat.leb n 31))%bool.

Definition space2 (a b : ascii) : bool :=
  let m := nat_of_ascii a in
  let n := nat_of_ascii b in
  (Nat.eqb m 194 && (Nat.eqb n 133 || Nat.eqb n 160))%bool.

Definition space3 (a b c : ascii) : bool :=
  let l := nat_of_ascii a in
  let m := nat_of_ascii b in
  let n := nat_of_ascii c in
  ((Nat.eqb l 225 && Nat.eqb m 154 && Nat.eqb n 128)
   || (Nat.eqb l 226 && Nat.eqb m 128
       && ((Nat.leb 128 n && Nat.leb n 138)
           || Nat.eqb n 168 || Nat.eqb n 169 || Nat.eqb n 175))
   || (Nat.eqb l 226 && Nat.eqb m 129 && Nat.eqb n 159)
   || (Nat.eqb l 227 && Nat.eqb m 128 && Nat.eqb n 128))%bool.

(** Leading whitespace removed.  With [backwards] the text is read from
    its end, so the bytes of a character come last byte first. *)
Fixpoint lstrip_from (backwards : bool) (s : string) : string :=
  match s with
  | EmptyString => EmptyString
  | String a r1 =>
      if space1 a then lstrip_from backwards r1
      else
        match r1 with
        | String b r2 =>
            if (if backwards then space2 b a else space2 a b)
            then lstrip_from backwards r2
            else
              match r2 with
              | String c r3 =>
                  if (if backwards then space3 c b a else space3 a b c)
                  then lstrip_from backwards r3
                  else s
              | EmptyString => s
              end
        | EmptyString => s
        end
  end.

Definition reverse (s : string) : string :=
  string_of_list_ascii (rev (list_ascii_of_string s)).

Definition lstrip (s : string) : string := lstrip_from false s.

Definition rstrip (s : string) : string :=
  reverse (lstrip_from true (reverse s)).

(** [s.strip()]: leading and trailing whitespace removed. *)
Definition strip (s : string) : string := rstrip (lstrip s).

(** The encodings of the whitespace characters, one by one. *)
Definition of_bytes (l : list nat) : string :=
  string_of_list_ascii (map ascii_of_nat l).

Definition WHITESPACE : list string :=
  map of_bytes
    (app [[9]; [10]; [11]; [12]; [13]; [28]; [29]; [30]; [31]; [32];
          [194; 133]; [194; 160]; [225; 154; 128]]
       (app (map (fun n => [226; 128; n]) (seq 128 11))
          [[226; 128; 168]; [226; 128; 169]; [226; 128; 175];
           [226; 129; 159]; [227; 128; 128]]))%nat.

(** Truth value of a [str]: non-empty. *)
Definition truthy (s : string) : bool :=
  match s with EmptyString => false | _ => true end.

Definition of_Z (z : Z) : string := NilZero.string_of_int (Z.to_int z).

Definition hex_digit (n : nat) : ascii :=
  ascii_of_nat (if Nat.ltb n 10 then 48 + n else 87 + n)%nat.

(** [repr] of a [str]: single quotes, unless the text holds a single quote
    and no double quote; backslash, the quote in use, tab, newline and
    carriage return escaped; other control characters as [\xhh].  Bytes
    from 128 on are taken to be parts of printable characters and are
    kept as they are. *)
Definition repr_char (q c : ascii) : string :=
  let n := nat_of_ascii c in
  if (Ascii.eqb c q || Nat.eqb n 92)%bool then bslash ++ String c EmptyString
  else if Nat.eqb n 9 then bslash ++ "t"
  else if Nat.eqb n 10 then bslash ++ "n"
  else if Nat.eqb n 13 then bslash ++ "r"
  else if (Nat.ltb n 32 || Nat.eqb n 127)%bool
       then bslash ++ "x" ++ String (hex_digit (Nat.div n 16))
                               (String (hex_digit (Nat.modulo n 16)) EmptyString)
  else String c EmptyString.

Definition repr (s : string) : string :=
  let q := if (mem squote s && negb (mem dquote s))%bool then dquote else squote in
  String q (String.concat EmptyString (map (repr_char q) (list_ascii_of_string s)))
    ++ String q EmptyString.

End Str.

(** ** Python values

    The values that [json] decoding produces and that the payload holds.
    A [float] is carried by its [repr] text, which is all the code does
    with one. *)

#[warnings="-register-all"]
Inductive pyval : Type :=
| PNone
| PBool (b : bool)
| PInt (z : Z)
| PFloat (text : string)
| PStr (s : string)
| PList (l : list pyval)
| PDict (d : list (string * pyval)).

(** ** Dicts: association lists in insertion order *)

Module Dict.

Section Ops.
Context {V : Type}.

(** [d.get(k)] as an option. *)
Fixpoint get (k : string) (d : list (string * V)) : option V :=
  match d with
  | [] => None
  | (k', v) :: d' => if String.eqb k k' then Some v else get k d'
  end.

(** [d[k] = v]: the binding is replaced in place, or appended. *)
Fixpoint set (k : string) (v : V) (d : list (string * V)) : list (string * V) :=
  match d with
  | [] => [(k, v)]
  | (k', v') :: d' =>
      if String.eqb k k' then (k, v) :: d' else (k', v') :: set k v d'
  end.

Definition keys (d : list (string * V)) : list string := map fst d.

End Ops.

End Dict.

(** ** Exceptions

    The classes the code can meet.  [InvalidJSONError] stands for
    [requests.exceptions.JSONDecodeError], which derives from both
    [RequestException] and [ValueError]; [ValueError] also covers
    [json.JSONDecodeError]. *)

Inductive exn_class : Type :=
| RequestException
| ConnectionError
| Timeout
| HTTPError
| InvalidJSONError
| ValueError
| AttributeError
| TypeError
| UnboundLocalError.

Record exn : Type := mk_exn { exn_cls : exn_class; exn_msg : string }.

(** [isinstance(e, requests.exceptions.RequestException)] *)
Definition is_RequestException (c : exn_class) : bool :=
  match c with
  | RequestException | ConnectionError | Timeout | HTTPError | InvalidJSONError => true
  | _ => false
  end.

(** [isinstance(e, ValueError)] *)
Definition is_ValueError (c : exn_class) : bool :=
  match c with
  | InvalidJSONError | ValueError => true
  | _ => false
  end.

Inductive result (A : Type) : Type :=
| Ok (a : A)
| Raise (e : exn).
Arguments Ok {A} a.
Arguments Raise {A} e.

Definition rbind {A B} (c : result A) (k : A -> result B) : result B :=
  match c with
  | Ok a => k a
  | Raise e => Raise e
  end.

Declare Scope res_scope.
Delimit Scope res_scope with res.
Notation "x <- c ;; k" := (rbind c (fun x => k))
  (at level 61, c at next level, right associativity) : res_scope.

(** ** Operations on Python values *)

Module Py.

Definition type_name (v : pyval) : string :=
  match v with
  | PNone => "NoneType"
  | PBool _ => "bool"
  | PInt _ => "int"
  | PFloat _ => "float"
  | PStr _ => "str"
  | PList _ => "list"
  | PDict _ => "dict"
  end.

(** Truth value, as [if v] tests it. *)
Definition truthy (v : pyval) : bool :=
  match v with
  | PNone => false
  | PBool b => b
  | PInt z => negb (z =? 0)
  | PFloat t => negb (String.eqb t "0.0" || String.eqb t "-0.0")
  | PStr s => Str.truthy s
  | PList l => match l with [] => false | _ => true end
  | PDict d => match d with [] => false | _ => true end
  end.

Fixpoint repr (v : pyval) : string :=
  match v with
  | PNone => "None"
  | PBool b => if b then "True" else "False"
  | PInt z => Str.of_Z z
  | PFloat t => t
  | PStr s => Str.repr s
  | PList l => "[" ++ Str.join ", " (map repr l) ++ "]"
  | PDict d =>
      "{" ++ Str.join ", " (map (fun kv => Str.repr (fst kv) ++ ": " ++ repr (snd kv)) d)
          ++ "}"
  end.

(** [str(v)], which is what [{v}] in an f-string inserts. *)
Definition str (v : pyval) : string :=
  match v with
  | PStr s => s
  | _ => repr v
  end.

(** [v.get(k, default)]: only a dict has the method. *)
Definition get (v : pyval) (k : string) (default : pyval) : result pyval :=
  match v with
  | PDict d =>
      Ok (match Dict.get k d with Some x => x | None => default end)
  | _ => Raise (mk_exn AttributeError
                  ("'" ++ type_name v ++ "' object has no attribute 'get'"))
  end.

(** [len(v)] *)
Definition len (v : pyval) : result Z :=
  match v with
  | PStr s => Ok (Z.of_nat (List.length (Str.chars s)))
  | PList l => Ok (Z.of_nat (List.length l))
  | PDict d => Ok (Z.of_nat (List.length d))
  | _ => Raise (mk_exn TypeError
                  ("object of type '" ++ type_name v ++ "' has no len()"))
  end.

(** The items a [for] loop over [v] visits: the elements of a list, the
    keys of a dict, the characters of a str. *)
Definition iter (v : pyval) : result (list pyval) :=
  match v with
  | PList l => Ok l
  | PDict d => Ok (map PStr (Dict.keys d))
  | PStr s => Ok (map PStr (Str.chars s))
  | _ => Raise (mk_exn TypeError
                  ("'" ++ type_name v ++ "' object is not iterable"))
  end.

Fixpoint join_items (i : nat) (items : list pyval) : result (list string) :=
  match items with
  | [] => Ok []
  | PStr s :: rest => (ss <- join_items (S i) rest ;; Ok (s :: ss))%res
  | v :: _ =>
      Raise (mk_exn TypeError
               ("sequence item " ++ Str.of_Z (Z.of_nat i)
                  ++ ": expected str instance, " ++ type_name v ++ " found"))
  end.

(** [sep.join(v)] *)
Definition join (sep : string) (v : pyval) : result string :=
  match iter v with
  | Ok items => (ss <- join_items 0 items ;; Ok (Str.join sep ss))%res
  | Raise _ => Raise (mk_exn TypeError "can only join an iterable")
  end.

(** [v.strip()]: only a str has the method. *)
Definition strip (v : pyval) : result string :=
  match v with
  | PStr s => Ok (Str.strip s)
  | _ => Raise (mk_exn AttributeError
                  ("'" ++ type_name v ++ "' object has no attribute 'strip'"))
  end.

(** A [for] loop whose body updates an accumulator and may raise. *)
Fixpoint for_each {A S : Type} (items : list A) (body : S -> A -> result S)
    (acc : S) : result S :=
  match items with
  | [] => Ok acc
  | x :: rest => (acc' <- body acc x ;; for_each rest body acc')%res
  end.

End Py.

(** ** Artifacts *)

Inductive text_artifact : Type :=
| TextArtifact (value : string).

Inductive artifact : Type :=
| ListArtifact (value : list text_artifact)
| ErrorArtifact (value : string).

(** ** The client, the HTTP exchange and the running frame *)

Record ApolloClient : Type := mk_client {
  api_key : string;
  timeout : Z
}.

Definition SEARCH_ENDPOINT : string :=
  "https://api.apollo.io/v1/mixed_people/search".
Definition ORGANIZATION_SEARCH_ENDPOINT : string :=
  "https://api.apollo.io/api/v1/mixed_companies/search".
Definition BULK_MATCH_ENDPOINT : string :=
  "https://api.apollo.io/api/v1/people/bulk_match".

(** The arguments of one [requests.post] call. *)
Record Request : Type := mk_request {
  req_url : string;
  req_json : list (string * pyval);
  req_headers : list (string * string);
  req_timeout : Z
}.

(** What the code uses of a [requests.Response]: the attribute [text] and
    what the methods [raise_for_status()] and [json()] do when called.
    [raise_for_status] is [Some e] when the method raises [e] (requests
    raises an [HTTPError] for a 4xx or 5xx status) and [None] when it
    returns. *)
Record Response : Type := mk_response {
  text : string;
  raise_for_status : option exn;
  json : result pyval
}.

(** The remote side: what [requests.post] does with a request, either
    raising (no connection, timeout) or returning a response. *)
Definition Network : Type := Request -> result Response.

(** The state an activity runs in: the client object, the local variable
    [response] of the frame (unbound until assigned) and the POST
    requests issued so far. *)
Record State : Type := mk_state {
  self : ApolloClient;
  response : option Response;
  posted : list Request
}.

Definition Act (A : Type) : Type := State -> result A * State.

Definition ret {A} (a : A) : Act A := fun s => (Ok a, s).

Definition raise {A} (e : exn) : Act A := fun s => (Raise e, s).

Definition bind {A B} (c : Act A) (k : A -> Act B) : Act B :=
  fun s =>
    match c s with
    | (Ok a, s') => k a s'
    | (Raise e, s') => (Raise e, s')
    end.

Definition lift {A} (r : result A) : Act A := fun s => (r, s).

Declare Scope act_scope.
Delimit Scope act_scope with act.
Notation "x <- c ;; k" := (bind c (fun x => k))
  (at level 61, c at next level, right associativity) : act_scope.
Notation "c ;;; k" := (bind c (fun _ => k))
  (at level 61, right associativity) : act_scope.

(** [self.api_key], [self.timeout] *)
Definition get_self : Act ApolloClient := fun s => (Ok (self s), s).

(** [response = requests.post(url, json=..., headers=..., timeout=...)]:
    the call is issued, and the variable is bound only if it returns. *)
Definition requests_post (net : Network) (rq : Request) : Act Response :=
  fun s =>
    let s' := mk_state (self s) (response s) (posted s ++ [rq]) in
    match net rq with
    | Ok r => (Ok r, mk_state (self s) (Some r) (posted s ++ [rq]))
    | Raise e => (Raise e, s')
    end.

(** What reading an unbound local variable raises. *)
Definition UNBOUND_RESPONSE : exn :=
  mk_exn UnboundLocalError
    "cannot access local variable 'response' where it is not associated with a value".

(** Reading the local variable [response]. *)
Definition load_response : Act Response :=
  fun s =>
    match response s with
    | Some r => (Ok r, s)
    | None => (Raise UNBOUND_RESPONSE, s)
    end.

(** [r.raise_for_status()] *)
Definition call_raise_for_status (r : Response) : Act unit :=
  match raise_for_status r with
  | Some e => raise e
  | None => ret tt
  end.

(** The [logging] calls leave no trace in the model; the expressions of
    their messages are still evaluated where they can raise. *)
Definition logging_info (msg : string) : Act unit := ret tt.
Definition logging_error (msg : string) : Act unit := ret tt.

(** [try: body  except C1 as e: h1  except C2: h2]: the first clause whose
    class the exception is an instance of handles it; an exception raised
    by a handler, or one that no clause matches, leaves the activity. *)
Fixpoint handler_for {A} (clauses : list ((exn_class -> bool) * (exn -> Act A)))
    (e : exn) : option (Act A) :=
  match clauses with
  | [] => None
  | (isinstance, h) :: rest =>
      if isinstance (exn_cls e) then Some (h e) else handler_for rest e
  end.

Definition try_except {A} (body : Act A)
    (clauses : list ((exn_class -> bool) * (exn -> Act A))) : Act A :=
  fun s =>
    match body s with
    | (Ok a, s') => (Ok a, s')
    | (Raise e, s') =>
        match handler_for clauses e with
        | Some h => h s'
        | None => (Raise e, s')
        end
    end.

(** An f-string in triple quotes: a newline, then each line at the given
    indentation, then the indentation of the closing quotes. *)
Definition block (indent : nat) (lines : list string) : string :=
  Str.nl
    ++ String.concat EmptyString (map (fun l => Str.spaces indent ++ l ++ Str.nl) lines)
    ++ Str.spaces indent.

Definition headers_for (c : ApolloClient) : list (string * string) :=
  [("accept", "application/json");
   ("Cache-Control", "no-cache");
   ("Content-Type", "application/json");
   ("x-api-key", api_key c)].

(** The two [except] clauses that end each activity. *)
Definition request_failed (e : exn) : Act artifact :=
  (logging_error ("Request failed: " ++ exn_msg e) ;;;
   r <- load_response ;;
   logging_error ("Response content: " ++ text r) ;;;
   ret (ErrorArtifact ("Request failed: " ++ exn_msg e)))%act.

Definition decode_failed (e : exn) : Act artifact :=
  (logging_error "Failed to decode JSON from response" ;;;
   ret (ErrorArtifact "Failed to decode JSON from response"))%act.

Definition except_clauses : list ((exn_class -> bool) * (exn -> Act artifact)) :=
  [(is_RequestException, request_failed); (is_ValueError, decode_failed)].

(** ** search_people *)

(** [params["values"]]: each filter field the schema lists is bound to a
    list of [str]. *)
Record SearchParams : Type := mk_search_params {
  values : list (string * list string)
}.

Definition str_list (l : list string) : pyval := PList (map PStr l).

(** [if x := values.get(k)]: the binding when the key is there and its
    list is not empty. *)
Definition get_truthy (vals : list (string * list string)) (k : string)
  : option (list string) :=
  match Dict.get k vals with
  | Some (x :: l) => Some (x :: l)
  | _ => None
  end.

Definition search_people_payload (vals : list (string * list string))
  : list (string * pyval) :=
  let payload := [] in
  let payload :=
    match get_truthy vals "person_titles" with
    | Some person_titles => Dict.set "person_titles" (str_list person_titles) payload
    | None => payload
    end in
  let payload :=
    match get_truthy vals "person_locations" with
    | Some person_locations =>
        Dict.set "person_locations" (str_list person_locations) payload
    | None => payload
    end in
  let payload :=
    match get_truthy vals "organization_locations" with
    | Some org_locations =>
        Dict.set "organization_locations" (str_list org_locations) payload
    | None => payload
    end in
  let payload :=
    match get_truthy vals "organization_num_employees_ranges" with
    | Some emp_ranges =>
        Dict.set "organization_num_employees_ranges" (str_list emp_ranges) payload
    | None => payload
    end in
  let payload :=
    match get_truthy vals "q_organization_keyword_tags" with
    | Some keywords => Dict.set "q_organization_keyword_tags" (str_list keywords) payload
    | None => payload
    end in
  let payload :=
    match get_truthy vals "q_organization_domains" with
    | Some domains =>
        Dict.set "q_organization_domains" (PStr (Str.join Str.nl domains)) payload
    | None => payload
    end in
  let payload := Dict.set "page" (PInt 1) payload in
  let payload := Dict.set "per_page" (PInt 10) payload in
  let payload := Dict.set "contact_email_status" (str_list ["verified"]) payload in
  payload.

Definition people_pagination_info (total_entries total_pages page per_page : pyval)
  : text_artifact :=
  TextArtifact (block 16
    ["Pagination Information:";
     "- Total Profiles Found: " ++ Py.str total_entries;
     "- Total Pages: " ++ Py.str total_pages;
     "- Current Page: " ++ Py.str page;
     "- Results Per Page: " ++ Py.str per_page]).

(** The body of [for person in people_data], up to the [TextArtifact]. *)
Definition format_person (person : pyval) : result text_artifact :=
  (org <- Py.get person "organization" (PDict []) ;;
   name <- Py.get person "name" PNone ;;
   title <- Py.get person "title" PNone ;;
   headline <- Py.get person "headline" PNone ;;
   email_status <- Py.get person "email_status" PNone ;;
   linkedin_url <- Py.get person "linkedin_url" PNone ;;
   city <- Py.get person "city" (PStr EmptyString) ;;
   state <- Py.get person "state" (PStr EmptyString) ;;
   country <- Py.get person "country" (PStr EmptyString) ;;
   let location := Py.str city ++ ", " ++ Py.str state ++ ", " ++ Py.str country in
   company_name <- Py.get org "name" PNone ;;
   company_website <- Py.get org "website_url" PNone ;;
   company_linkedin <- Py.get org "linkedin_url" PNone ;;
   seniority <- Py.get person "seniority" PNone ;;
   departments <- Py.get person "departments" (PList []) ;;
   functions <- Py.get person "functions" (PList []) ;;
   departments_text <- Py.join ", " departments ;;
   functions_text <- Py.join ", " functions ;;
   Ok (TextArtifact (block 20
     ["Name: " ++ Py.str name;
      "Title: " ++ Py.str title;
      "Headline: " ++ Py.str headline;
      "Email Status: " ++ Py.str email_status;
      "LinkedIn: " ++ Py.str linkedin_url;
      "Location: " ++ location;
      "Company: " ++ Py.str company_name;
      "Company Website: " ++ Py.str company_website;
      "Company LinkedIn: " ++ Py.str company_linkedin;
      "Seniority: " ++ Py.str seniority;
      "Departments: " ++ departments_text;
      "Functions: " ++ functions_text])))%res.

(** [formatted.append(TextArtifact(...))] after formatting one item. *)
Definition append_formatted (format : pyval -> result text_artifact)
    (formatted : list text_artifact) (item : pyval) : result (list text_artifact) :=
  (record <- format item ;; Ok (formatted ++ [record])%list)%res.

(** The [try] block of [search_people] from [pagination = ...] to the
    [return]: the decoded answer turned into the [ListArtifact].  The
    [logging] calls in between leave no trace; [len(people_data)] in the
    message of one of them is evaluated and can raise. *)
Definition people_listing (data : pyval) : result artifact :=
  (pagination <- Py.get data "pagination" (PDict []) ;;
   total_entries <- Py.get pagination "total_entries" (PInt 0) ;;
   total_pages <- Py.get pagination "total_pages" (PInt 0) ;;
   people_data <- Py.get data "people" (PList []) ;;
   n <- Py.len people_data ;;
   page <- Py.get pagination "page" (PInt 1) ;;
   per_page <- Py.get pagination "per_page" (PInt 10) ;;
   let pagination_info :=
     people_pagination_info total_entries total_pages page per_page in
   let formatted_people := [pagination_info] in
   people <- Py.iter people_data ;;
   formatted_people <-
     Py.for_each people (append_formatted format_person) formatted_people ;;
   Ok (ListArtifact formatted_people))%res.

Definition search_people (net : Network) (params : SearchParams) : Act artifact :=
  (let payload := search_people_payload (values params) in
   client <- get_self ;;
   let headers := headers_for client in
   try_except
     (response <- requests_post net
                    (mk_request SEARCH_ENDPOINT payload headers (timeout client)) ;;
      logging_info ("Request payload: " ++ Py.str (PDict payload)) ;;;
      call_raise_for_status response ;;;
      data <- lift (json response) ;;
      logging_info ("Response data: " ++ Py.str data) ;;;
      lift (people_listing data))
     except_clauses)%act.

(** ** search_organizations *)

Definition search_organizations_payload (vals : list (string * list string))
  : list (string * pyval) :=
  let payload := [] in
  let payload :=
    match get_truthy vals "organization_num_employees_ranges" with
    | Some emp_ranges =>
        Dict.set "organization_num_employees_ranges" (str_list emp_ranges) payload
    | None => payload
    end in
  let payload :=
    match get_truthy vals "organization_locations" with
    | Some org_locations =>
        Dict.set "organization_locations" (str_list org_locations) payload
    | None => payload
    end in
  let payload :=
    match get_truthy vals "organization_not_locations" with
    | Some not_locations =>
        Dict.set "organization_not_locations" (str_list not_locations) payload
    | None => payload
    end in
  let payload :=
    match get_truthy vals "q_organization_keyword_tags" with
    | Some keywords => Dict.set "q_organization_keyword_tags" (str_list keywords) payload
    | None => payload
    end in
  let payload := Dict.set "page" (PInt 1) payload in
  let payload := Dict.set "per_page" (PInt 10) payload in
  payload.

Definition organizations_pagination_info (total_entries : pyval) : text_artifact :=
  TextArtifact (block 16
    ["Pagination Information:";
     "- Total Organizations Found: " ++ Py.str total_entries]).

(** The body of [for org in organizations_data]. *)
Definition format_org (org : pyval) : result text_artifact :=
  (phone_info <- Py.get org "primary_phone" (PDict []) ;;
   phone_number <-
     (if Py.truthy phone_info
      then Py.get phone_info "number" PNone
      else Py.get org "phone" PNone) ;;
   name <- Py.get org "name" PNone ;;
   website <- Py.get org "website_url" PNone ;;
   linkedin_url <- Py.get org "linkedin_url" PNone ;;
   twitter_url <- Py.get org "twitter_url" PNone ;;
   facebook_url <- Py.get org "facebook_url" PNone ;;
   blog_url <- Py.get org "blog_url" PNone ;;
   languages <- Py.get org "languages" (PList []) ;;
   alexa_ranking <- Py.get org "alexa_ranking" PNone ;;
   founded_year <- Py.get org "founded_year" PNone ;;
   publicly_traded_symbol <- Py.get org "publicly_traded_symbol" PNone ;;
   publicly_traded_exchange <- Py.get org "publicly_traded_exchange" PNone ;;
   logo_url <- Py.get org "logo_url" PNone ;;
   primary_domain <- Py.get org "primary_domain" PNone ;;
   languages_text <- Py.join ", " languages ;;
   Ok (TextArtifact (block 20
     ["Name: " ++ Py.str name;
      "Website: " ++ Py.str website;
      "LinkedIn: " ++ Py.str linkedin_url;
      "Twitter: " ++ Py.str twitter_url;
      "Facebook: " ++ Py.str facebook_url;
      "Blog: " ++ Py.str blog_url;
      "Phone: " ++ Py.str phone_number;
      "Languages: " ++ languages_text;
      "Alexa Ranking: " ++ Py.str alexa_ranking;
      "Founded Year: " ++ Py.str founded_year;
      "Stock Symbol: " ++ Py.str publicly_traded_symbol;
      "Stock Exchange: " ++ Py.str publicly_traded_exchange;
      "Logo URL: " ++ Py.str logo_url;
      "Primary Domain: " ++ Py.str primary_domain])))%res.

(** The [try] block of [search_organizations] from [pagination = ...] to
    the [return].  [total_pages] is read and not used. *)
Definition organizations_listing (data : pyval) : result artifact :=
  (pagination <- Py.get data "pagination" (PDict []) ;;
   total_entries <- Py.get pagination "total_entries" (PInt 0) ;;
   total_pages <- Py.get pagination "total_pages" (PInt 0) ;;
   organizations_data <- Py.get data "organizations" (PList []) ;;
   n <- Py.len organizations_data ;;
   found <- Py.get pagination "total_entries" (PInt 0) ;;
   let pagination_info := organizations_pagination_info found in
   let formatted_orgs := [pagination_info] in
   orgs <- Py.iter organizations_data ;;
   formatted_orgs <-
     Py.for_each orgs (append_formatted format_org) formatted_orgs ;;
   Ok (ListArtifact formatted_orgs))%res.

Definition search_organizations (net : Network) (params : SearchParams)
  : Act artifact :=
  (let payload := search_organizations_payload (values params) in
   client <- get_self ;;
   let headers := headers_for client in
   try_except
     (response <- requests_post net
                    (mk_request ORGANIZATION_SEARCH_ENDPOINT payload headers
                       (timeout client)) ;;
      logging_info ("Request payload: " ++ Py.str (PDict payload)) ;;;
      call_raise_for_status response ;;;
      data <- lift (json response) ;;
      logging_info ("Response data: " ++ Py.str data) ;;;
      lift (organizations_listing data))
     except_clauses)%act.

(** ** enrich_people *)

(** [params["values"]["details"]]: a list of dicts.  The schema binds
    [email] and [linkedin_url], when present, to a [str]; it ignores the
    other keys, so these can hold any value. *)
Record EnrichParams : Type := mk_enrich_params {
  details : list (list (string * pyval))
}.

Definition VALIDATION_MESSAGE : string :=
  "Each person must have either a LinkedIn URL or email address".

(** The condition [v and v.strip()]: a false [v] is not stripped; a true
    one that is no str raises. *)
Definition keeps (v : pyval) : result bool :=
  if Py.truthy v
  then (stripped <- Py.strip v ;; Ok (Str.truthy stripped))%res
  else Ok false.

(** [{k: v for k, v in person.items() if v and v.strip()}] *)
Fixpoint clean_person (person : list (string * pyval))
  : result (list (string * pyval)) :=
  match person with
  | [] => Ok []
  | (k, v) :: rest =>
      (keep <- keeps v ;;
       cleaned <- clean_person rest ;;
       Ok (if keep then (k, v) :: cleaned else cleaned))%res
  end.

(** Truth value of [d.get(k)]. *)
Definition get_is_truthy (d : list (string * pyval)) (k : string) : bool :=
  match Dict.get k d with
  | Some v => Py.truthy v
  | None => false
  end.

(** The cleaning loop: [inl] is the [return] inside the loop, [inr] the
    list [cleaned_details] when the loop runs to its end. *)
Fixpoint clean_details (persons : list (list (string * pyval)))
    (cleaned_details : list (list (string * pyval)))
  : result (artifact + list (list (string * pyval))) :=
  match persons with
  | [] => Ok (inr cleaned_details)
  | person :: rest =>
      (cleaned_person <- clean_person person ;;
       if negb (get_is_truthy cleaned_person "linkedin_url"
                || get_is_truthy cleaned_person "email")
       then Ok (inl (ErrorArtifact VALIDATION_MESSAGE))
       else clean_details rest (cleaned_details ++ [cleaned_person]))%res
  end.

Definition enrich_people_payload (cleaned_details : list (list (string * pyval)))
  : list (string * pyval) :=
  [("details", PList (map PDict cleaned_details));
   ("reveal_personal_emails", PBool false);
   ("reveal_phone_number", PBool false)].

Definition enrichment_summary (requested enriched missing credits : pyval)
  : text_artifact :=
  TextArtifact (block 16
    ["Enrichment Summary:";
     "- Total Requested: " ++ Py.str requested;
     "- Successfully Enriched: " ++ Py.str enriched;
     "- Missing Records: " ++ Py.str missing;
     "- Credits Consumed: " ++ Py.str credits]).

(** [next((job for job in jobs if job.get("current")), {})] *)
Fixpoint first_current (jobs : list pyval) : result pyval :=
  match jobs with
  | [] => Ok (PDict [])
  | job :: rest =>
      (current <- Py.get job "current" PNone ;;
       if Py.truthy current then Ok job else first_current rest)%res
  end.

(** The body of [for person in data.get("matches", [])]. *)
Definition format_match (person : pyval) : result text_artifact :=
  (employment_history <- Py.get person "employment_history" (PList []) ;;
   jobs <- Py.iter employment_history ;;
   current_job <- first_current jobs ;;
   name <- Py.get person "name" PNone ;;
   email <- Py.get person "email" PNone ;;
   linkedin_url <- Py.get person "linkedin_url" PNone ;;
   title <- Py.get person "title" PNone ;;
   organization_name <- Py.get current_job "organization_name" PNone ;;
   city <- Py.get person "city" (PStr EmptyString) ;;
   state <- Py.get person "state" (PStr EmptyString) ;;
   country <- Py.get person "country" (PStr EmptyString) ;;
   departments <- Py.get person "departments" (PList []) ;;
   departments_text <- Py.join ", " departments ;;
   seniority <- Py.get person "seniority" PNone ;;
   functions <- Py.get person "functions" (PList []) ;;
   functions_text <- Py.join ", " functions ;;
   is_likely_to_engage <- Py.get person "is_likely_to_engage" (PBool false) ;;
   Ok (TextArtifact (block 20
     ["Name: " ++ Py.str name;
      "Email: " ++ Py.str email;
      "LinkedIn: " ++ Py.str linkedin_url;
      "Current Title: " ++ Py.str title;
      "Current Company: " ++ Py.str organization_name;
      "Location: " ++ Py.str city ++ ", " ++ Py.str state ++ ", " ++ Py.str country;
      "Departments: " ++ departments_text;
      "Seniority: " ++ Py.str seniority;
      "Functions: " ++ functions_text;
      "Is Likely to Engage: " ++ Py.str is_likely_to_engage])))%res.

(** The [try] block of [enrich_people] from [results = []] to the
    [return]. *)
Definition enrichment_listing (data : pyval) : result artifact :=
  (let results := [] in
   requested <- Py.get data "total_requested_enrichments" (PInt 0) ;;
   enriched <- Py.get data "unique_enriched_records" (PInt 0) ;;
   missing <- Py.get data "missing_records" (PInt 0) ;;
   credits <- Py.get data "credits_consumed" (PInt 0) ;;
   let summary := enrichment_summary requested enriched missing credits in
   let results := (results ++ [summary])%list in
   matches <- Py.get data "matches" (PList []) ;;
   persons <- Py.iter matches ;;
   results <- Py.for_each persons (append_formatted format_match) results ;;
   Ok (ListArtifact results))%res.

Definition enrich_people (net : Network) (params : EnrichParams) : Act artifact :=
  (cleaned <- lift (clean_details (details params) []) ;;
   match cleaned with
   | inl error => ret error
   | inr cleaned_details =>
       let payload := enrich_people_payload cleaned_details in
       client <- get_self ;;
       let headers := headers_for client in
       try_except
         (response <- requests_post net
                        (mk_request BULK_MATCH_ENDPOINT payload headers
                           (timeout client)) ;;
          logging_info ("Request payload: " ++ Py.str (PDict payload)) ;;;
          call_raise_for_status response ;;;
          data <- lift (json response) ;;
          logging_info ("Response data: " ++ Py.str data) ;;;
          lift (enrichment_listing data))
         except_clauses
   end)%act.

(** A call of an activity on a client: a fresh frame, in which
    [response] is unbound, after the requests of [history]. *)
Definition call {A} (act : Act A) (client : ApolloClient) (history : list Request)
  : result A * State :=
  act (mk_state client None history).

(** ** The three activities as one entry point *)

Inductive activity : Type :=
| SearchPeople (params : SearchParams)
| SearchOrganizations (params : SearchParams)
| EnrichPeople (params : EnrichParams).

Definition run (net : Network) (a : activity) : Act artifact :=
  match a with
  | SearchPeople params => search_people net params
  | SearchOrganizations params => search_organizations net params
  | EnrichPeople params => enrich_people net params
  end.

(** ** What a call amounts to

    The request an activity posts, if any, and its result as a function
    of what [requests.post] did.  [run_spec] below proves that the
    activities compute exactly this. *)

Definition request_of (client : ApolloClient) (a : activity) : option Request :=
  match a with
  | SearchPeople params =>
      Some (mk_request SEARCH_ENDPOINT (search_people_payload (values params))
              (headers_for client) (timeout client))
  | SearchOrganizations params =>
      Some (mk_request ORGANIZATION_SEARCH_ENDPOINT
              (search_organizations_payload (values params))
              (headers_for client) (timeout client))
  | EnrichPeople params =>
      match clean_details (details params) [] with
      | Ok (inr cleaned_details) =>
          Some (mk_request BULK_MATCH_ENDPOINT (enrich_people_payload cleaned_details)
                  (headers_for client) (timeout client))
      | _ => None
      end
  end.

(** What a call that posts nothing ends with: the [return] of the
    cleaning loop, or the exception the cleaning raised.  It is read only
    where [request_of] is [None]. *)
Definition refusal (a : activity) : result artifact :=
  match a with
  | EnrichPeople params =>
      match clean_details (details params) [] with
      | Ok (inl error) => Ok error
      | Raise e => Raise e
      | Ok (inr _) => Ok (ErrorArtifact VALIDATION_MESSAGE)
      end
  | _ => Ok (ErrorArtifact VALIDATION_MESSAGE)
  end.

Definition listing_of (a : activity) : pyval -> result artifact :=
  match a with
  | SearchPeople _ => people_listing
  | SearchOrganizations _ => organizations_listing
  | EnrichPeople _ => enrichment_listing
  end.

(** The [except] clauses on an exception [e] of the [try] block, with
    [response] bound or not. *)
Definition handled (bound : bool) (e : exn) : result artifact :=
  if is_RequestException (exn_cls e) then
    if bound then Ok (ErrorArtifact ("Request failed: " ++ exn_msg e))
    else Raise UNBOUND_RESPONSE
  else if is_ValueError (exn_cls e) then
    Ok (ErrorArtifact "Failed to decode JSON from response")
  else Raise e.

Definition after_response (listing : pyval -> result artifact) (r : Response)
  : result artifact :=
  match raise_for_status r with
  | Some e => handled true e
  | None =>
      match json r with
      | Raise e => handled true e
      | Ok data =>
          match listing data with
          | Ok a => Ok a
          | Raise e => handled true e
          end
      end
  end.

Definition outcome (listing : pyval -> result artifact) (posted_result : result Response)
  : result artifact :=
  match posted_result with
  | Ok r => after_response listing r
  | Raise e => handled false e
  end.

Definition bound_response (posted_result : result Response) : option Response :=
  match posted_result with
  | Ok r => Some r
  | Raise _ => None
  end.

(** ** Reading a decoded answer with the defaults of the code *)

(** [v.get(k, default)] where [v] is a dict. *)
Definition field (v : pyval) (k : string) (default : pyval) : pyval :=
  match v with
  | PDict d => match Dict.get k d with Some x => x | None => default end
  | _ => default
  end.

Definition items_of (v : pyval) : list pyval :=
  match Py.iter v with
  | Ok l => l
  | Raise _ => []
  end.

(** The summary record of each activity for the decoded answer [data]. *)
Definition summary_of (a : activity) (data : pyval) : text_artifact :=
  match a with
  | SearchPeople _ =>
      let pagination := field data "pagination" (PDict []) in
      people_pagination_info
        (field pagination "total_entries" (PInt 0))
        (field pagination "total_pages" (PInt 0))
        (field pagination "page" (PInt 1))
        (field pagination "per_page" (PInt 10))
  | SearchOrganizations _ =>
      let pagination := field data "pagination" (PDict []) in
      organizations_pagination_info (field pagination "total_entries" (PInt 0))
  | EnrichPeople _ =>
      enrichment_summary
        (field data "total_requested_enrichments" (PInt 0))
        (field data "unique_enriched_records" (PInt 0))
        (field data "missing_records" (PInt 0))
        (field data "credits_consumed" (PInt 0))
  end.

(** The result entries of the decoded answer: the people, organizations
    or matches the loop of the activity visits. *)
Definition entries_of (a : activity) (data : pyval) : list pyval :=
  match a with
  | SearchPeople _ => items_of (field data "people" (PList []))
  | SearchOrganizations _ => items_of (field data "organizations" (PList []))
  | EnrichPeople _ => items_of (field data "matches" (PList []))
  end.

(** ** Shapes of a decoded answer

    A key may be missing; a key that is present holds a value of the JSON
    type the code goes on to use. *)

Definition is_dict (v : pyval) : bool :=
  match v with PDict _ => true | _ => false end.

Definition is_str (v : pyval) : bool :=
  match v with PStr _ => true | _ => false end.

Definition is_list_of (p : pyval -> bool) (v : pyval) : bool :=
  match v with PList l => forallb p l | _ => false end.

Definition is_dict_or_none (v : pyval) : bool :=
  match v with PDict _ | PNone => true | _ => false end.

Definition absent_or (p : pyval -> bool) (k : string) (d : list (string * pyval)) : bool :=
  match Dict.get k d with
  | None => true
  | Some v => p v
  end.

Definition person_shaped (v : pyval) : bool :=
  match v with
  | PDict d =>
      absent_or is_dict "organization" d
      && absent_or (is_list_of is_str) "departments" d
      && absent_or (is_list_of is_str) "functions" d
  | _ => false
  end.

Definition org_shaped (v : pyval) : bool :=
  match v with
  | PDict d =>
      absent_or is_dict_or_none "primary_phone" d
      && absent_or (is_list_of is_str) "languages" d
  | _ => false
  end.

Definition match_shaped (v : pyval) : bool :=
  match v with
  | PDict d =>
      absent_or (is_list_of is_dict) "employment_history" d
      && absent_or (is_list_of is_str) "departments" d
      && absent_or (is_list_of is_str) "functions" d
  | _ => false
  end.

Definition shaped (a : activity) (data : pyval) : bool :=
  match a, data with
  | SearchPeople _, PDict d =>
      absent_or is_dict "pagination" d
      && absent_or (is_list_of person_shaped) "people" d
  | SearchOrganizations _, PDict d =>
      absent_or is_dict "pagination" d
      && absent_or (is_list_of org_shaped) "organizations" d
  | EnrichPeople _, PDict d =>
      absent_or (is_list_of match_shaped) "matches" d
  | _, _ => false
  end.

(** ** Enrichment targets *)

Definition nonblank (v : string) : bool := Str.truthy (Str.strip v).

(** A value that the cleaning keeps: a str that is not blank. *)
Definition kept (v : pyval) : bool :=
  match v with
  | PStr s => nonblank s
  | _ => false
  end.

(** A value that the cleaning can test: a str, or a value that is false
    ([None], [False], 0, an empty list or dict). *)
Definition testable (v : pyval) : bool :=
  match v with
  | PStr _ => true
  | _ => negb (Py.truthy v)
  end.

(** A target all of whose values can be tested. *)
Definition cleanable (person : list (string * pyval)) : bool :=
  forallb (fun kv => testable (snd kv)) person.

(** The target without the keys whose value is not kept. *)
Definition cleaned (person : list (string * pyval)) : list (string * pyval) :=
  filter (fun kv => kept (snd kv)) person.

(** The target binds [k] to a non-blank str. *)
Definition supplies (person : list (string * pyval)) (k : string) : bool :=
  existsb (fun kv => String.eqb k (fst kv) && kept (snd kv)) person.

(** The target has an email or a profile URL. *)
Definition identified (person : list (string * pyval)) : bool :=
  supplies person "linkedin_url" || supplies person "email".

(** A target that passes the loop: cleanable and identified. *)
Definition accepted (person : list (string * pyval)) : bool :=
  cleanable person && identified person.

(** The call ends with the validation error and has posted nothing. *)
Definition rejected (res : result artifact * State) (history : list Request) : Prop :=
  fst res = Ok (ErrorArtifact VALIDATION_MESSAGE) /\ posted (snd res) = history.

(** ** Filter fields *)

Definition PEOPLE_FILTERS : list string :=
  ["person_titles"; "person_locations"; "organization_locations";
   "organization_num_employees_ranges"; "q_organization_keyword_tags";
   "q_organization_domains"].

Definition ORGANIZATION_FILTERS : list string :=
  ["organization_num_employees_ranges"; "organization_locations";
   "organization_not_locations"; "q_organization_keyword_tags"].

(** The text of a record shows the value [v]. *)
Definition shows (record : text_artifact) (v : pyval) : bool :=
  match record with
  | TextArtifact s => Str.contains (Py.str v) s
  end.

(** The value the people payload binds a filter field to. *)
Definition people_filter_value (k : string) (l : list string) : pyval :=
  if String.eqb k "q_organization_domains"
  then PStr (Str.join Str.nl l)
  else str_list l.

(** ** Further vocabulary *)

(** The endpoint of each activity. *)
Definition endpoint_of (a : activity) : string :=
  match a with
  | SearchPeople _ => SEARCH_ENDPOINT
  | SearchOrganizations _ => ORGANIZATION_SEARCH_ENDPOINT
  | EnrichPeople _ => BULK_MATCH_ENDPOINT
  end.

(** A [str] made of whitespace characters only (the empty one
    included). *)
Definition blank (v : string) : Prop :=
  exists ws,
    Forall (fun w => In w Str.WHITESPACE) ws
    /\ v = fold_right append EmptyString ws.

(** U+00A0, the no-break space. *)
Definition NBSP : string := Str.of_bytes [194; 160]%nat.

Definition sample_organizations : pyval :=
  PDict [("organizations",
          PList [PDict [("name", PStr "Acme"); ("phone", PStr "+1 555 0100")];
                 PDict [("name", PStr "Globex");
                        ("languages", PList [PStr "English"; PStr "German"])]])].

(** An exception that neither [except] clause of the activities takes. *)
Definition escapes (e : exn) : bool :=
  negb (is_RequestException (exn_cls e)) && negb (is_ValueError (exn_cls e)).

Definition PEOPLE_PAYLOAD_KEYS : list string :=
  (PEOPLE_FILTERS ++ ["page"; "per_page"; "contact_email_status"])%list.

Definition ORGANIZATION_PAYLOAD_KEYS : list string :=
  (ORGANIZATION_FILTERS ++ ["page"; "per_page"])%list.

(** A job of an employment history that the search for the current one
    passes over: a dict whose [current] is missing or false. *)
Definition past_job (job : pyval) : bool :=
  match job with
  | PDict d => negb (Py.truthy (field job "current" PNone))
  | _ => false
  end.

(** A job that the search stops at: a dict whose [current] is true. *)
Definition current_job (job : pyval) : bool :=
  match job with
  | PDict d => Py.truthy (field job "current" PNone)
  | _ => false
  end.

(** The formatting of one entry by each activity. *)
Definition format_of (a : activity) : pyval -> result text_artifact :=
  match a with
  | SearchPeople _ => format_person
  | SearchOrganizations _ => format_org
  | EnrichPeople _ => format_match
  end.

(** No string occurs twice in the list. *)
Fixpoint distinct (l : list string) : bool :=
  match l with
  | [] => true
  | k :: l' => negb (existsb (String.eqb k) l') && distinct l'
  end.

(** ** Sample data *)

Definition sample_client : ApolloClient := mk_client "secret" 10.

(** A remote side that answers every request with status 200 and the JSON
    text of [data]. *)
Definition answering (data : pyval) : Network :=
  fun _ => Ok (mk_response (Py.repr data) None (Ok data)).

(** A remote side that cannot be reached. *)
Definition unreachable (msg : string) : Network :=
  fun _ => Raise (mk_exn ConnectionError msg).

Definition sample_page : pyval :=
  PDict [("pagination",
          PDict [("total_entries", PInt 42); ("total_pages", PInt 5);
                 ("page", PInt 3); ("per_page", PInt 7)])].

Definition null_organization : pyval :=
  PDict [("people", PList [PDict [("name", PStr "Ann"); ("organization", PNone)]])].

(** A remote side that answers with an error status: the status check
    raises an [HTTPError] with the given message. *)
Definition rejecting (msg body : string) : Network :=
  fun _ => Ok (mk_response body (Some (mk_exn HTTPError msg))
                 (Raise (mk_exn InvalidJSONError "Expecting value"))).

(** A remote side that answers with a good status and a body that is not
    JSON: decoding raises an exception of the given class. *)
Definition garbled (cls : exn_class) (msg body : string) : Network :=
  fun _ => Ok (mk_response body None (Raise (mk_exn cls msg))).

(** * Properties *)

(** ** Dicts *)

Lemma get_set_same {V} (k : string) (v : V) (d : list (string * V)) :
  Dict.get k (Dict.set k v d) = Some v.
Proof.
  induction d as [|[k' v'] d IH]; cbn.
  - now rewrite String.eqb_refl.
  - destruct (String.eqb k k') eqn:E; cbn.
    + now rewrite String.eqb_refl.
    + now rewrite E.
Qed.

Lemma get_set_other {V} (k k' : string) (v : V) (d : list (string * V)) :
  k <> k' -> Dict.get k (Dict.set k' v d) = Dict.get k d.
Proof.
  intros Hk. apply String.eqb_neq in Hk.
  induction d as [|[k0 v0] d IH]; cbn.
  - now rewrite Hk.
  - destruct (String.eqb k' k0) eqn:E; cbn.
    + apply String.eqb_eq in E; subst k0. now rewrite Hk.
    + now rewrite IH.
Qed.

(** ** The activities compute [outcome] *)

Lemma handler_for_spec (e : exn) (s : State) :
  match handler_for except_clauses e with
  | Some h => h s
  | None => (Raise e, s)
  end
  = (handled (match response s with Some _ => true | None => false end) e, s).
Proof.
  unfold handled. cbn.
  destruct (is_RequestException (exn_cls e)).
  - unfold request_failed, logging_error, bind, ret, load_response.
    cbn. now destruct (response s).
  - destruct (is_ValueError (exn_cls e)); reflexivity.
Qed.

Lemma try_except_spec (body : Act artifact) (s : State) :
  try_except body except_clauses s =
  match body s with
  | (Ok a, s') => (Ok a, s')
  | (Raise e, s') =>
      (handled (match response s' with Some _ => true | None => false end) e, s')
  end.
Proof.
  unfold try_except. destruct (body s) as [[a|e] s']; auto.
  apply handler_for_spec.
Qed.

Lemma try_block_spec (net : Network) (rq : Request)
    (listing : pyval -> result artifact) (m1 : string) (m2 : pyval -> string)
    (client : ApolloClient) (history : list Request) :
  try_except
    (response <- requests_post net rq ;;
     logging_info m1 ;;;
     call_raise_for_status response ;;;
     data <- lift (json response) ;;
     logging_info (m2 data) ;;;
     lift (listing data))%act
    except_clauses (mk_state client None history)
  = (outcome listing (net rq),
     mk_state client (bound_response (net rq)) (history ++ [rq])).
Proof.
  rewrite try_except_spec.
  unfold bind, requests_post, logging_info, ret, call_raise_for_status, lift,
    raise, outcome, after_response; cbn.
  destruct (net rq) as [r|e]; cbn; auto.
  destruct (raise_for_status r) as [e|]; cbn; auto.
  destruct (json r) as [data|e]; cbn; auto.
  destruct (listing data) as [a|e]; cbn; auto.
Qed.

Lemma run_spec (net : Network) (a : activity) (client : ApolloClient)
    (history : list Request) :
  call (run net a) client history =
  match request_of client a with
  | Some rq =>
      (outcome (listing_of a) (net rq),
       mk_state client (bound_response (net rq)) (history ++ [rq]))
  | None => (refusal a, mk_state client None history)
  end.
Proof.
  destruct a as [params|params|params];
    unfold call, run, request_of, refusal, listing_of.
  - unfold search_people, bind at 1, get_self; cbn [self]. apply try_block_spec.
  - unfold search_organizations, bind at 1, get_self; cbn [self].
    apply try_block_spec.
  - unfold enrich_people, bind at 1, lift.
    destruct (clean_details (details params) []) as [[error|cleaned_details]|e].
    + reflexivity.
    + unfold bind at 1, get_self; cbn [self]. apply try_block_spec.
    + reflexivity.
Qed.

(** ** Reading values *)

Lemma rbind_ok {A B} (c : result A) (k : A -> result B) (b : B) :
  rbind c k = Ok b -> exists a, c = Ok a /\ k a = Ok b.
Proof.
  destruct c as [a|e]; cbn; [eauto | discriminate].
Qed.

Lemma get_ok (v : pyval) (k : string) (default x : pyval) :
  Py.get v k default = Ok x ->
  (exists d, v = PDict d) /\ x = field v k default.
Proof.
  destruct v; cbn; try discriminate.
  intros H; inversion H; eauto.
Qed.

Lemma get_dict (d : list (string * pyval)) (k : string) (default : pyval) :
  Py.get (PDict d) k default = Ok (field (PDict d) k default).
Proof. reflexivity. Qed.

Lemma field_shaped (p : pyval -> bool) (k : string) (d : list (string * pyval))
    (default : pyval) :
  absent_or p k d = true -> p default = true -> p (field (PDict d) k default) = true.
Proof.
  unfold absent_or, field. now destruct (Dict.get k d).
Qed.

Lemma is_dict_inv (v : pyval) : is_dict v = true -> exists d, v = PDict d.
Proof. destruct v; cbn; try discriminate; eauto. Qed.

Lemma is_list_of_inv (p : pyval -> bool) (v : pyval) :
  is_list_of p v = true -> exists l, v = PList l /\ forallb p l = true.
Proof. destruct v; cbn; try discriminate; eauto. Qed.

Lemma join_items_ok (l : list pyval) (i : nat) :
  forallb is_str l = true -> exists ss, Py.join_items i l = Ok ss.
Proof.
  revert i. induction l as [|v l IH]; cbn; intros i H; eauto.
  apply andb_prop in H as [Hv Hl]. destruct v; try discriminate.
  destruct (IH (S i) Hl) as [ss Hss]. rewrite Hss. cbn. eauto.
Qed.

Lemma join_ok (sep : string) (v : pyval) :
  is_list_of is_str v = true -> exists s, Py.join sep v = Ok s.
Proof.
  intros H. apply is_list_of_inv in H as (l & -> & Hl).
  unfold Py.join; cbn. destruct (join_items_ok l 0 Hl) as [ss Hss].
  rewrite Hss. cbn. eauto.
Qed.

Lemma first_current_ok (jobs : list pyval) :
  forallb is_dict jobs = true ->
  exists d, first_current jobs = Ok (PDict d).
Proof.
  induction jobs as [|job jobs IH]; cbn; intros H; eauto.
  apply andb_prop in H as [Hj Hjs].
  apply is_dict_inv in Hj as [d ->]. cbn.
  destruct (Py.truthy _); eauto.
Qed.

(** ** The loops *)

Lemma for_each_append (format : pyval -> result text_artifact)
    (items : list pyval) (acc l : list text_artifact) :
  Py.for_each items (append_formatted format) acc = Ok l ->
  exists rest, l = (acc ++ rest)%list /\ length rest = length items.
Proof.
  revert acc. induction items as [|x items IH]; cbn; intros acc H.
  - inversion H. exists []. now rewrite app_nil_r.
  - apply rbind_ok in H as (acc' & Hx & H).
    unfold append_formatted in Hx.
    apply rbind_ok in Hx as (record & _ & Hx). inversion Hx; subst acc'.
    apply IH in H as (rest & -> & Hlen).
    exists (record :: rest). rewrite <- app_assoc. cbn. auto.
Qed.

Lemma for_each_ok (format : pyval -> result text_artifact) (p : pyval -> bool)
    (items : list pyval) (acc : list text_artifact) :
  (forall x, p x = true -> exists r, format x = Ok r) ->
  forallb p items = true ->
  exists l, Py.for_each items (append_formatted format) acc = Ok l.
Proof.
  intros Hf. revert acc. induction items as [|x items IH]; cbn; intros acc H; eauto.
  apply andb_prop in H as [Hx Hl].
  destruct (Hf x Hx) as [r Hr]. unfold append_formatted at 1. rewrite Hr. cbn.
  apply IH, Hl.
Qed.

Lemma format_person_ok (person : pyval) :
  person_shaped person = true -> exists r, format_person person = Ok r.
Proof.
  intros H. destruct person as [| | | | | |d]; cbn in H; try discriminate.
  apply andb_prop in H as [H Hf]. apply andb_prop in H as [Ho Hd].
  unfold format_person. rewrite !get_dict. cbn [rbind].
  pose proof (field_shaped _ _ _ (PDict []) Ho eq_refl) as Horg.
  apply is_dict_inv in Horg as [org ->]. rewrite !get_dict. cbn [rbind].
  destruct (join_ok ", " _ (field_shaped _ _ _ (PList []) Hd eq_refl)) as [sd ->].
  destruct (join_ok ", " _ (field_shaped _ _ _ (PList []) Hf eq_refl)) as [sf ->].
  cbn [rbind]. eauto.
Qed.

Lemma format_org_ok (org : pyval) :
  org_shaped org = true -> exists r, format_org org = Ok r.
Proof.
  intros H. destruct org as [| | | | | |d]; cbn in H; try discriminate.
  apply andb_prop in H as [Hp Hl].
  unfold format_org. rewrite !get_dict. cbn [rbind].
  pose proof (field_shaped _ _ _ (PDict []) Hp eq_refl) as Hph.
  assert (exists x, (if Py.truthy (field (PDict d) "primary_phone" (PDict []))
                     then Py.get (field (PDict d) "primary_phone" (PDict []))
                            "number" PNone
                     else Ok (field (PDict d) "phone" PNone)) = Ok x) as [x ->].
  { destruct (field (PDict d) "primary_phone" (PDict [])); try discriminate;
      cbn; eauto. destruct d0; eauto. }
  cbn [rbind].
  destruct (join_ok ", " _ (field_shaped _ _ _ (PList []) Hl eq_refl)) as [sl ->].
  cbn [rbind]. eauto.
Qed.

Lemma format_match_ok (person : pyval) :
  match_shaped person = true -> exists r, format_match person = Ok r.
Proof.
  intros H. destruct person as [| | | | | |d]; cbn in H; try discriminate.
  apply andb_prop in H as [H Hf]. apply andb_prop in H as [He Hd].
  unfold format_match. rewrite !get_dict. cbn [rbind].
  pose proof (field_shaped _ _ _ (PList []) He eq_refl) as Hjobs.
  apply is_list_of_inv in Hjobs as (jobs & -> & Hjobs). cbn [Py.iter rbind].
  destruct (first_current_ok jobs Hjobs) as [job ->]. cbn [rbind].
  rewrite !get_dict. cbn [rbind].
  destruct (join_ok ", " _ (field_shaped _ _ _ (PList []) Hd eq_refl)) as [sd ->].
  cbn [rbind].
  destruct (join_ok ", " _ (field_shaped _ _ _ (PList []) Hf eq_refl)) as [sf ->].
  cbn [rbind]. eauto.
Qed.

(** ** The listings *)

Ltac read_field H x :=
  let Hx := fresh "Hget" in
  apply rbind_ok in H as (x & Hx & H);
  apply get_ok in Hx as (? & ->).

Lemma listing_head (a : activity) (data : pyval) (l : list text_artifact) :
  listing_of a data = Ok (ListArtifact l) ->
  exists rest,
    l = summary_of a data :: rest /\ length rest = length (entries_of a data).
Proof.
  destruct a as [params|params|params]; cbn [listing_of summary_of entries_of];
    intros H.
  - unfold people_listing in H.
    read_field H pagination. read_field H total_entries.
    read_field H total_pages. read_field H people_data.
    apply rbind_ok in H as (n & _ & H).
    read_field H page. read_field H per_page.
    apply rbind_ok in H as (people & Hiter & H).
    apply rbind_ok in H as (formatted & Hloop & H).
    apply for_each_append in Hloop as (rest & -> & Hlen).
    inversion H. exists rest. split; auto.
    unfold items_of. now rewrite Hiter.
  - unfold organizations_listing in H.
    read_field H pagination. read_field H total_entries.
    read_field H total_pages. read_field H organizations_data.
    apply rbind_ok in H as (n & _ & H).
    read_field H found.
    apply rbind_ok in H as (orgs & Hiter & H).
    apply rbind_ok in H as (formatted & Hloop & H).
    apply for_each_append in Hloop as (rest & -> & Hlen).
    inversion H. exists rest. split; auto.
    unfold items_of. now rewrite Hiter.
  - unfold enrichment_listing in H.
    read_field H requested. read_field H enriched.
    read_field H missing. read_field H credits.
    read_field H matches.
    apply rbind_ok in H as (persons & Hiter & H).
    apply rbind_ok in H as (results & Hloop & H).
    apply for_each_append in Hloop as (rest & -> & Hlen).
    inversion H. exists rest. split; auto.
    unfold items_of. now rewrite Hiter.
Qed.

Lemma listing_shaped (a : activity) (data : pyval) :
  shaped a data = true -> exists l, listing_of a data = Ok (ListArtifact l).
Proof.
  destruct a as [params|params|params]; intros H;
    destruct data as [| | | | | |d]; cbn in H; try discriminate;
    cbn [listing_of].
  - apply andb_prop in H as [Hp Hl].
    unfold people_listing. rewrite !get_dict. cbn [rbind].
    pose proof (field_shaped _ _ _ (PDict []) Hp eq_refl) as Hpag.
    apply is_dict_inv in Hpag as [pagination ->]. rewrite !get_dict. cbn [rbind].
    pose proof (field_shaped _ _ _ (PList []) Hl eq_refl) as Hpeople.
    apply is_list_of_inv in Hpeople as (people & -> & Hpeople).
    cbn [Py.len Py.iter rbind].
    destruct (for_each_ok format_person person_shaped people
                [people_pagination_info
                   (field (PDict pagination) "total_entries" (PInt 0))
                   (field (PDict pagination) "total_pages" (PInt 0))
                   (field (PDict pagination) "page" (PInt 1))
                   (field (PDict pagination) "per_page" (PInt 10))]
                format_person_ok Hpeople) as [l ->].
    cbn [rbind]. eauto.
  - apply andb_prop in H as [Hp Hl].
    unfold organizations_listing. rewrite !get_dict. cbn [rbind].
    pose proof (field_shaped _ _ _ (PDict []) Hp eq_refl) as Hpag.
    apply is_dict_inv in Hpag as [pagination ->]. rewrite !get_dict. cbn [rbind].
    pose proof (field_shaped _ _ _ (PList []) Hl eq_refl) as Horgs.
    apply is_list_of_inv in Horgs as (orgs & -> & Horgs).
    cbn [Py.len Py.iter rbind].
    destruct (for_each_ok format_org org_shaped orgs
                [organizations_pagination_info
                   (field (PDict pagination) "total_entries" (PInt 0))]
                format_org_ok Horgs) as [l ->].
    cbn [rbind]. eauto.
  - unfold enrichment_listing. rewrite !get_dict. cbn [rbind].
    pose proof (field_shaped _ _ _ (PList []) H eq_refl) as Hm.
    apply is_list_of_inv in Hm as (persons & -> & Hm).
    cbn [Py.iter rbind].
    destruct (for_each_ok format_match match_shaped persons
                ([] ++ [enrichment_summary
                   (field (PDict d) "total_requested_enrichments" (PInt 0))
                   (field (PDict d) "unique_enriched_records" (PInt 0))
                   (field (PDict d) "missing_records" (PInt 0))
                   (field (PDict d) "credits_consumed" (PInt 0))])%list
                format_match_ok Hm) as [l ->].
    cbn [rbind]. eauto.
Qed.

(** ** Results of a call *)

Lemma handled_not_list (bound : bool) (e : exn) (l : list text_artifact) :
  handled bound e <> Ok (ListArtifact l).
Proof.
  unfold handled.
  destruct (is_RequestException (exn_cls e)), bound,
    (is_ValueError (exn_cls e)); discriminate.
Qed.

Lemma handled_not_validation (bound : bool) (e : exn) :
  handled bound e <> Ok (ErrorArtifact VALIDATION_MESSAGE).
Proof.
  unfold handled.
  destruct (is_RequestException (exn_cls e)), bound,
    (is_ValueError (exn_cls e)); cbn; discriminate.
Qed.

Lemma outcome_list (listing : pyval -> result artifact)
    (posted_result : result Response) (l : list text_artifact) :
  outcome listing posted_result = Ok (ListArtifact l) ->
  exists r data,
    posted_result = Ok r /\ raise_for_status r = None /\ json r = Ok data
    /\ listing data = Ok (ListArtifact l).
Proof.
  destruct posted_result as [r|e]; cbn.
  - unfold after_response.
    destruct (raise_for_status r) as [e|] eqn:Es.
    + intros H. now apply handled_not_list in H.
    + destruct (json r) as [data|e] eqn:Ej.
      * destruct (listing data) as [a|e] eqn:E.
        -- intros H. inversion H; subst a. eauto 6.
        -- intros H. now apply handled_not_list in H.
      * intros H. now apply handled_not_list in H.
  - intros H. now apply handled_not_list in H.
Qed.

Lemma listing_is_list (a : activity) (data : pyval) (x : artifact) :
  listing_of a data = Ok x -> exists l, x = ListArtifact l.
Proof.
  destruct a; cbn [listing_of];
    unfold people_listing, organizations_listing, enrichment_listing;
    intros H; repeat (apply rbind_ok in H as (? & _ & H));
    inversion H; eauto.
Qed.

Lemma outcome_not_validation (a : activity) (posted_result : result Response) :
  outcome (listing_of a) posted_result <> Ok (ErrorArtifact VALIDATION_MESSAGE).
Proof.
  destruct posted_result as [r|e]; cbn; [|apply handled_not_validation].
  unfold after_response.
  destruct (raise_for_status r); [apply handled_not_validation|].
  destruct (json r) as [data|]; [|apply handled_not_validation].
  destruct (listing_of a data) as [x|] eqn:E; [|apply handled_not_validation].
  apply listing_is_list in E as [l ->]. discriminate.
Qed.

(** What each activity posts. *)
Lemma posted_by_call (net : Network) (a : activity) (client : ApolloClient)
    (history : list Request) (rq : Request) :
  request_of client a = Some rq ->
  posted (snd (call (run net a) client history)) = (history ++ [rq])%list
  /\ fst (call (run net a) client history) = outcome (listing_of a) (net rq).
Proof.
  intros H. rewrite run_spec, H. auto.
Qed.

(** ** The cleaning loop *)

Lemma nonblank_truthy (v : string) : nonblank v = true -> Str.truthy v = true.
Proof.
  destruct v; [discriminate | reflexivity].
Qed.

Lemma keeps_testable (v : pyval) : testable v = true -> keeps v = Ok (kept v).
Proof.
  unfold keeps. destruct v as [| | | |s| |]; cbn [testable kept];
    try (intros H; apply negb_true_iff in H; now rewrite H).
  intros _. cbn [Py.truthy Py.strip rbind]. now destruct s.
Qed.

Lemma keeps_raise (v : pyval) :
  testable v = false ->
  keeps v = Raise (mk_exn AttributeError
                     ("'" ++ Py.type_name v ++ "' object has no attribute 'strip'")).
Proof.
  unfold keeps. destruct v as [| | | |s| |]; cbn [testable];
    try discriminate; intros H; apply negb_false_iff in H; now rewrite H.
Qed.

Lemma clean_person_ok (person : list (string * pyval)) :
  cleanable person = true -> clean_person person = Ok (cleaned person).
Proof.
  unfold cleanable, cleaned.
  induction person as [|[k v] person IH]; cbn [forallb clean_person filter snd];
    auto.
  intros H. apply andb_prop in H as [Hv H].
  rewrite (keeps_testable v Hv), (IH H). reflexivity.
Qed.

Lemma clean_person_raise (person : list (string * pyval)) :
  cleanable person = false ->
  exists e, clean_person person = Raise e /\ exn_cls e = AttributeError.
Proof.
  unfold cleanable.
  induction person as [|[k v] person IH]; cbn [forallb clean_person snd].
  - discriminate.
  - destruct (testable v) eqn:Hv; cbn [andb]; intros H.
    + rewrite (keeps_testable v Hv). cbn [rbind].
      destruct (IH H) as (e & -> & He). cbn [rbind]. eauto.
    + rewrite (keeps_raise v Hv). cbn [rbind]. eauto.
Qed.

Lemma cleaned_supplies (person : list (string * pyval)) (k : string) :
  get_is_truthy (cleaned person) k = supplies person k.
Proof.
  unfold get_is_truthy, supplies, cleaned.
  induction person as [|[k' v] person IH]; cbn [filter existsb fst snd]; auto.
  destruct (kept v) eqn:Ev.
  - cbn [Dict.get]. destruct (String.eqb k k'); cbn [andb orb]; auto.
    destruct v; try discriminate. cbn [kept] in Ev. cbn [Py.truthy].
    now apply nonblank_truthy.
  - rewrite IH. now rewrite andb_false_r.
Qed.

Lemma clean_details_step (person : list (string * pyval))
    (rest acc : list (list (string * pyval))) :
  cleanable person = true ->
  clean_details (person :: rest) acc =
  if identified person
  then clean_details rest (acc ++ [cleaned person])
  else Ok (inl (ErrorArtifact VALIDATION_MESSAGE)).
Proof.
  intros H. cbn [clean_details]. rewrite (clean_person_ok person H). cbn [rbind].
  rewrite !cleaned_supplies. fold (identified person).
  now destruct (identified person).
Qed.

Lemma clean_details_rejects (before after : list (list (string * pyval)))
    (person : list (string * pyval)) (acc : list (list (string * pyval))) :
  forallb cleanable before = true ->
  cleanable person = true -> identified person = false ->
  clean_details (before ++ person :: after) acc
  = Ok (inl (ErrorArtifact VALIDATION_MESSAGE)).
Proof.
  intros Hb Hc Hi. revert acc.
  induction before as [|p before IH]; cbn [app]; intros acc.
  - now rewrite (clean_details_step _ _ _ Hc), Hi.
  - cbn [forallb] in Hb. apply andb_prop in Hb as [Hp Hb].
    rewrite (clean_details_step _ _ _ Hp). destruct (identified p); auto.
Qed.

Lemma clean_details_accepts (persons acc : list (list (string * pyval))) :
  forallb accepted persons = true ->
  clean_details persons acc = Ok (inr (acc ++ map cleaned persons)%list).
Proof.
  revert acc. induction persons as [|p persons IH]; cbn [forallb map]; intros acc H.
  - cbn. now rewrite app_nil_r.
  - apply andb_prop in H as [Hp H]. unfold accepted in Hp.
    apply andb_prop in Hp as [Hc Hi].
    rewrite (clean_details_step _ _ _ Hc), Hi, (IH _ H).
    now rewrite <- app_assoc.
Qed.

(** The loop returns early only at a target that is cleanable and not
    identified, after targets that were all accepted. *)
Lemma clean_details_returns (persons acc : list (list (string * pyval)))
    (error : artifact) :
  clean_details persons acc = Ok (inl error) ->
  error = ErrorArtifact VALIDATION_MESSAGE
  /\ exists before person after,
       persons = (before ++ person :: after)%list
       /\ forallb accepted before = true
       /\ cleanable person = true /\ identified person = false.
Proof.
  revert acc. induction persons as [|p persons IH]; intros acc H.
  - discriminate.
  - destruct (cleanable p) eqn:Hc.
    + rewrite (clean_details_step _ _ _ Hc) in H.
      destruct (identified p) eqn:Hi.
      * apply IH in H as (-> & before & person & after & -> & Hb & Hp & Hn).
        split; auto. exists (p :: before), person, after.
        cbn [app forallb]. unfold accepted at 1. rewrite Hc, Hi. auto.
      * inversion H. split; auto. exists [], p, persons. auto.
    + cbn [clean_details] in H.
      destruct (clean_person_raise p Hc) as (e & He & _).
      rewrite He in H. discriminate.
Qed.

(** The loop raises only the [AttributeError] of a value that is true and
    no str. *)
Lemma clean_details_raises (persons acc : list (list (string * pyval)))
    (e : exn) :
  clean_details persons acc = Raise e -> exn_cls e = AttributeError.
Proof.
  revert acc. induction persons as [|p persons IH]; intros acc H.
  - discriminate.
  - destruct (cleanable p) eqn:Hc.
    + rewrite (clean_details_step _ _ _ Hc) in H.
      destruct (identified p); [eauto | discriminate].
    + cbn [clean_details] in H.
      destruct (clean_person_raise p Hc) as (e' & He & Hcls).
      rewrite He in H. cbn [rbind] in H. now inversion H; subst.
Qed.

(** On a dict, where no key occurs twice, [supplies] reads the binding of
    the key. *)
Lemma supplies_get (person : list (string * pyval)) (k : string) :
  NoDup (Dict.keys person) ->
  supplies person k =
  match Dict.get k person with
  | Some v => kept v
  | None => false
  end.
Proof.
  unfold supplies.
  induction person as [|[k' v] person IH]; cbn; intros Hnd; auto.
  inversion Hnd as [|? ? Hnot Hnd']; subst.
  destruct (String.eqb k k') eqn:E; cbn.
  - apply String.eqb_eq in E; subst k'.
    destruct (kept v); cbn; auto.
    rewrite IH by assumption.
    destruct (Dict.get k person) eqn:G; auto.
    exfalso. apply Hnot. clear - G.
    induction person as [|[k0 v0] person IH]; cbn in *; [discriminate|].
    destruct (String.eqb k k0) eqn:E0.
    + left. apply String.eqb_eq in E0. auto.
    + right. auto.
  - now apply IH.
Qed.

Lemma refusal_not_list (a : activity) (l : list text_artifact) :
  refusal a <> Ok (ListArtifact l).
Proof.
  destruct a as [params|params|params]; cbn [refusal]; try discriminate.
  destruct (clean_details (details params) []) as [[error|c]|e] eqn:E;
    try discriminate.
  apply clean_details_returns in E as [-> _]. discriminate.
Qed.

(** ** The payloads *)

Lemma get_truthy_omitted (vals : list (string * list string)) (k : string) :
  Dict.get k vals = None \/ Dict.get k vals = Some [] ->
  get_truthy vals k = None.
Proof.
  unfold get_truthy. now intros [-> | ->].
Qed.

Lemma people_payload_filter (vals : list (string * list string)) (k : string) :
  In k PEOPLE_FILTERS ->
  Dict.get k (search_people_payload vals) =
  option_map (people_filter_value k) (get_truthy vals k).
Proof.
  unfold PEOPLE_FILTERS, search_people_payload. cbn [In].
  intros [<- | [<- | [<- | [<- | [<- | [<- | []]]]]]];
    destruct (get_truthy vals "person_titles"),
      (get_truthy vals "person_locations"),
      (get_truthy vals "organization_locations"),
      (get_truthy vals "organization_num_employees_ranges"),
      (get_truthy vals "q_organization_keyword_tags"),
      (get_truthy vals "q_organization_domains"); reflexivity.
Qed.

Lemma organizations_payload_filter (vals : list (string * list string)) (k : string) :
  In k ORGANIZATION_FILTERS ->
  Dict.get k (search_organizations_payload vals) =
  option_map str_list (get_truthy vals k).
Proof.
  unfold ORGANIZATION_FILTERS, search_organizations_payload. cbn [In].
  intros [<- | [<- | [<- | [<- | []]]]];
    destruct (get_truthy vals "organization_num_employees_ranges"),
      (get_truthy vals "organization_locations"),
      (get_truthy vals "organization_not_locations"),
      (get_truthy vals "q_organization_keyword_tags"); reflexivity.
Qed.

(** A call that ends with a [ListArtifact] got an answer with a good
    status and a JSON body, and its list opens with the summary of that
    body, followed by one record per entry. *)
Lemma call_success (net : Network) (a : activity) (client : ApolloClient)
    (history : list Request) (l : list text_artifact) :
  fst (call (run net a) client history) = Ok (ListArtifact l) ->
  exists rq r data rest,
    request_of client a = Some rq /\ net rq = Ok r /\ json r = Ok data
    /\ l = summary_of a data :: rest
    /\ length rest = length (entries_of a data).
Proof.
  rewrite run_spec. destruct (request_of client a) as [rq|]; cbn [fst].
  - intros H. apply outcome_list in H as (r & data & Hnet & _ & Hjson & H).
    apply listing_head in H as (rest & -> & Hlen).
    exists rq, r, data, rest. auto.
  - intros H. now apply refusal_not_list in H.
Qed.

(** * The claims *)

(** ** Validation of the enrichment targets *)

(** C1, as stated, fails: on the empty list of targets [enrich_people]
    gives no validation error and does post a request. *)
Lemma empty_targets_counterexample :
  let res := call (enrich_people (answering (PDict [])) (mk_enrich_params []))
               sample_client [] in
  ~ rejected res []
  /\ fst res <> Ok (ErrorArtifact VALIDATION_MESSAGE)
  /\ posted (snd res) <> [].
Proof.
  cbv zeta. split; [|split].
  - intros [H _]. vm_compute in H. discriminate.
  - vm_compute. discriminate.
  - vm_compute. discriminate.
Qed.

(** C1, amended: [enrich_people] does not check that the list of targets
    is non-empty.  On the empty list it posts one request to the
    bulk-match endpoint whose payload binds [details] to the empty list and
    both reveal flags to [False]; the result is what the handling of the
    answer gives, and it is never the validation error. *)
Theorem enrich_people_empty_targets (net : Network) (client : ApolloClient)
    (history : list Request) :
  let res := call (enrich_people net (mk_enrich_params [])) client history in
  let rq := mk_request BULK_MATCH_ENDPOINT (enrich_people_payload [])
              (headers_for client) (timeout client) in
  posted (snd res) = (history ++ [rq])%list
  /\ req_json rq = [("details", PList []);
                    ("reveal_personal_emails", PBool false);
                    ("reveal_phone_number", PBool false)]
  /\ fst res = outcome enrichment_listing (net rq)
  /\ fst res <> Ok (ErrorArtifact VALIDATION_MESSAGE).
Proof.
  cbv zeta.
  destruct (posted_by_call net (EnrichPeople (mk_enrich_params [])) client history
              _ eq_refl) as [Hp Hr].
  cbn [run] in Hp, Hr. split; [exact Hp|]. split; [reflexivity|].
  split; [exact Hr|]. rewrite Hr.
  apply (outcome_not_validation (EnrichPeople (mk_enrich_params []))).
Qed.

(** A target that can be cleaned and has neither a non-blank email nor a
    non-blank profile URL, after targets that can be cleaned, ends the call
    with the validation error before anything is posted. *)
Lemma unidentified_cleanable_rejected (net : Network) (params : EnrichParams)
    (client : ApolloClient) (history : list Request)
    (before after : list (list (string * pyval)))
    (person : list (string * pyval)) :
  details params = (before ++ person :: after)%list ->
  forallb cleanable before = true ->
  cleanable person = true -> identified person = false ->
  rejected (call (enrich_people net params) client history) history.
Proof.
  intros Hd Hb Hc Hi. unfold rejected.
  change (enrich_people net params) with (run net (EnrichPeople params)).
  rewrite run_spec. cbn [request_of refusal]. rewrite Hd.
  rewrite (clean_details_rejects _ _ _ _ Hb Hc Hi). auto.
Qed.

(** C4 fails on the code when a target holds, under a key the schema
    ignores, a value that is true and no str: the target [{"id": 5}] has
    neither an email nor a profile URL, yet the call does not return the
    validation error.  The condition [v and v.strip()] of the cleaning
    raises an [AttributeError], which leaves the call; nothing is
    posted. *)
Theorem non_string_value_escapes (net : Network) (client : ApolloClient)
    (history : list Request) :
  identified [("id", PInt 5)] = false
  /\ call (enrich_people net (mk_enrich_params [[("id", PInt 5)]])) client history
     = (Raise (mk_exn AttributeError "'int' object has no attribute 'strip'"),
        mk_state client None history)
  /\ ~ rejected
        (call (enrich_people net (mk_enrich_params [[("id", PInt 5)]]))
           client history) history.
Proof.
  assert (call (enrich_people net (mk_enrich_params [[("id", PInt 5)]]))
            client history
          = (Raise (mk_exn AttributeError "'int' object has no attribute 'strip'"),
             mk_state client None history)) as H.
  { change (enrich_people net (mk_enrich_params [[("id", PInt 5)]]))
      with (run net (EnrichPeople (mk_enrich_params [[("id", PInt 5)]]))).
    now rewrite run_spec. }
  split; [reflexivity|]. split; [exact H|].
  rewrite H. intros [Hr _]. discriminate.
Qed.

(** ** Failures of the HTTP exchange *)

(** X10: when the status check raises, the call returns the request-failed
    error with the message of the exception. *)
Lemma status_error_reported (net : Network) (a : activity) (client : ApolloClient)
    (history : list Request) (rq : Request) (r : Response) (e : exn) :
  request_of client a = Some rq -> net rq = Ok r ->
  raise_for_status r = Some e -> is_RequestException (exn_cls e) = true ->
  fst (call (run net a) client history)
  = Ok (ErrorArtifact ("Request failed: " ++ exn_msg e)).
Proof.
  intros Hrq Hnet Hst He. rewrite run_spec, Hrq, Hnet. cbn.
  unfold after_response, handled. now rewrite Hst, He.
Qed.

(** X11: when decoding raises a [ValueError] that is no [RequestException],
    the call returns the decode error. *)
Lemma decode_error_reported (net : Network) (a : activity) (client : ApolloClient)
    (history : list Request) (rq : Request) (r : Response) (e : exn) :
  request_of client a = Some rq -> net rq = Ok r ->
  raise_for_status r = None -> json r = Raise e ->
  is_RequestException (exn_cls e) = false -> is_ValueError (exn_cls e) = true ->
  fst (call (run net a) client history)
  = Ok (ErrorArtifact "Failed to decode JSON from response").
Proof.
  intros Hrq Hnet Hst Hj He Hv. rewrite run_spec, Hrq, Hnet. cbn.
  unfold after_response, handled. now rewrite Hst, Hj, He, Hv.
Qed.

(** X12: the decoding exception of [requests] itself is a [RequestException]
    as well, and the first clause takes it. *)
Lemma requests_decode_error_reported (net : Network) (a : activity)
    (client : ApolloClient) (history : list Request) (rq : Request)
    (r : Response) (msg : string) :
  request_of client a = Some rq -> net rq = Ok r ->
  raise_for_status r = None -> json r = Raise (mk_exn InvalidJSONError msg) ->
  fst (call (run net a) client history)
  = Ok (ErrorArtifact ("Request failed: " ++ msg)).
Proof.
  intros Hrq Hnet Hst Hj. rewrite run_spec, Hrq, Hnet. cbn.
  unfold after_response, handled. now rewrite Hst, Hj.
Qed.

(** C2 fails on the code when [requests.post] itself raises: the first
    [except] clause reads [response.text] while [response] is unbound, and
    the call ends with an [UnboundLocalError] instead of an
    [ErrorArtifact]. *)
Theorem transport_error_escapes (msg : string) (client : ApolloClient)
    (history : list Request) (criteria : SearchParams) :
  fst (call (search_people (unreachable msg) criteria) client history)
    = Raise UNBOUND_RESPONSE
  /\ fst (call (search_organizations (unreachable msg) criteria) client history)
    = Raise UNBOUND_RESPONSE
  /\ fst (call (enrich_people (unreachable msg)
                  (mk_enrich_params [[("email", PStr "x@y.com")]])) client history)
    = Raise UNBOUND_RESPONSE.
Proof.
  split; [|split].
  - change (search_people (unreachable msg) criteria)
      with (run (unreachable msg) (SearchPeople criteria)).
    now rewrite run_spec.
  - change (search_organizations (unreachable msg) criteria)
      with (run (unreachable msg) (SearchOrganizations criteria)).
    now rewrite run_spec.
  - change (enrich_people (unreachable msg)
              (mk_enrich_params [[("email", PStr "x@y.com")]]))
      with (run (unreachable msg)
              (EnrichPeople (mk_enrich_params [[("email", PStr "x@y.com")]]))).
    now rewrite run_spec.
Qed.

(** ** The payloads of the two searches *)

(** C5: a filter field that is missing from the criteria, or bound to the
    empty list, is not a key of the payload that [search_people] or
    [search_organizations] posts. *)
Theorem omitted_filters_not_sent (net : Network) (client : ApolloClient)
    (history : list Request) (params : SearchParams) (k : string) :
  Dict.get k (values params) = None \/ Dict.get k (values params) = Some [] ->
  (In k PEOPLE_FILTERS ->
   exists rq,
     posted (snd (call (search_people net params) client history))
       = (history ++ [rq])%list
     /\ Dict.get k (req_json rq) = None)
  /\ (In k ORGANIZATION_FILTERS ->
      exists rq,
        posted (snd (call (search_organizations net params) client history))
          = (history ++ [rq])%list
        /\ Dict.get k (req_json rq) = None).
Proof.
  intros H. apply get_truthy_omitted in H. split; intros Hk.
  - eexists. split.
    + exact (proj1 (posted_by_call net (SearchPeople params) client history
                      _ eq_refl)).
    + cbn [req_json]. now rewrite people_payload_filter, H.
  - eexists. split.
    + exact (proj1 (posted_by_call net (SearchOrganizations params) client history
                      _ eq_refl)).
    + cbn [req_json]. now rewrite organizations_payload_filter, H.
Qed.

(** Titles bound to the empty list are left out of the people payload. *)
Lemma omitted_filters_not_sent_witness :
  exists rq,
    posted (snd (call (search_people (answering (PDict []))
                         (mk_search_params [("person_titles", [])])) sample_client []))
      = [rq]
    /\ Dict.get "person_titles" (req_json rq) = None.
Proof.
  apply (proj1 (omitted_filters_not_sent (answering (PDict [])) sample_client []
                  (mk_search_params [("person_titles", [])]) "person_titles"
                  (or_intror eq_refl))).
  left. reflexivity.
Defined.

(** C7: the domains ["a.com"; "b.com"] go into the payload of
    [search_people] as the one string "a.com", newline, "b.com". *)
Theorem domains_joined_by_newline (net : Network) (client : ApolloClient)
    (history : list Request) (params : SearchParams) :
  Dict.get "q_organization_domains" (values params) = Some ["a.com"; "b.com"] ->
  exists rq,
    posted (snd (call (search_people net params) client history))
      = (history ++ [rq])%list
    /\ Dict.get "q_organization_domains" (req_json rq)
       = Some (PStr ("a.com" ++ Str.nl ++ "b.com")).
Proof.
  intros H. eexists. split.
  - exact (proj1 (posted_by_call net (SearchPeople params) client history
                    _ eq_refl)).
  - cbn [req_json]. rewrite people_payload_filter by (cbn; auto 10).
    unfold get_truthy. now rewrite H.
Qed.

Lemma domains_joined_by_newline_witness :
  exists rq,
    posted (snd (call (search_people (answering (PDict []))
                         (mk_search_params
                            [("q_organization_domains", ["a.com"; "b.com"])]))
                   sample_client []))
      = [rq]
    /\ Dict.get "q_organization_domains" (req_json rq)
       = Some (PStr ("a.com" ++ Str.nl ++ "b.com")).
Proof.
  apply (domains_joined_by_newline (answering (PDict [])) sample_client []
           (mk_search_params [("q_organization_domains", ["a.com"; "b.com"])])).
  reflexivity.
Defined.

(** C8: whatever the criteria, the payload that [search_people] posts
    binds [page] to 1, [per_page] to 10 and [contact_email_status] to the
    list ["verified"]. *)
Theorem people_payload_fixed_fields (net : Network) (client : ApolloClient)
    (history : list Request) (params : SearchParams) :
  exists rq,
    posted (snd (call (search_people net params) client history))
      = (history ++ [rq])%list
    /\ Dict.get "page" (req_json rq) = Some (PInt 1)
    /\ Dict.get "per_page" (req_json rq) = Some (PInt 10)
    /\ Dict.get "contact_email_status" (req_json rq)
       = Some (PList [PStr "verified"]).
Proof.
  eexists. split.
  - exact (proj1 (posted_by_call net (SearchPeople params) client history
                    _ eq_refl)).
  - cbn [req_json]. unfold search_people_payload. cbv zeta.
    split; [|split].
    + rewrite (get_set_other "page" "contact_email_status") by discriminate.
      rewrite (get_set_other "page" "per_page") by discriminate.
      apply get_set_same.
    + rewrite (get_set_other "per_page" "contact_email_status") by discriminate.
      apply get_set_same.
    + apply get_set_same.
Qed.

(** ** The listing of an answer *)

(** C6: when a call of one of the three activities succeeds, the first
    element of the list it returns is the summary record of the decoded
    answer; one record per result entry follows, so with no entry the
    summary is the whole list. *)
Theorem summary_record_first (net : Network) (a : activity) (client : ApolloClient)
    (history : list Request) (l : list text_artifact) :
  fst (call (run net a) client history) = Ok (ListArtifact l) ->
  exists rq r data rest,
    request_of client a = Some rq /\ net rq = Ok r /\ json r = Ok data
    /\ l = summary_of a data :: rest
    /\ length rest = length (entries_of a data)
    /\ (entries_of a data = [] -> l = [summary_of a data]).
Proof.
  intros H.
  apply call_success in H as (rq & r & data & rest & Hrq & Hnet & Hj & -> & Hlen).
  exists rq, r, data, rest. repeat (split; auto).
  intros He. rewrite He in Hlen. now destruct rest.
Qed.

Lemma summary_record_first_witness :
  exists rq r data rest,
    request_of sample_client (EnrichPeople (mk_enrich_params [[("email", PStr "x@y.com")]]))
      = Some rq
    /\ answering (PDict []) rq = Ok r /\ json r = Ok data
    /\ [enrichment_summary (PInt 0) (PInt 0) (PInt 0) (PInt 0)]
       = summary_of (EnrichPeople (mk_enrich_params [[("email", PStr "x@y.com")]])) data
           :: rest
    /\ length rest
       = length (entries_of (EnrichPeople (mk_enrich_params [[("email", PStr "x@y.com")]]))
                   data)
    /\ (entries_of (EnrichPeople (mk_enrich_params [[("email", PStr "x@y.com")]])) data = []
        -> [enrichment_summary (PInt 0) (PInt 0) (PInt 0) (PInt 0)]
           = [summary_of (EnrichPeople (mk_enrich_params [[("email", PStr "x@y.com")]]))
                data]).
Proof.
  apply (summary_record_first (answering (PDict []))
           (EnrichPeople (mk_enrich_params [[("email", PStr "x@y.com")]]))
           sample_client []).
  reflexivity.
Defined.

(** C3, as stated, fails: the summary of [search_organizations] shows the
    total of entries and none of total pages, current page and page
    size. *)
Lemma organizations_summary_counterexample :
  exists summary rest,
    fst (call (search_organizations (answering sample_page) (mk_search_params []))
           sample_client [])
      = Ok (ListArtifact (summary :: rest))
    /\ shows summary (PInt 42) = true
    /\ shows summary (PInt 5) = false
    /\ shows summary (PInt 3) = false
    /\ shows summary (PInt 7) = false.
Proof.
  eexists. eexists. split; [vm_compute; reflexivity|].
  vm_compute. auto.
Qed.

(** C3, amended: on every successful call of [search_organizations] the
    leading summary record is the pagination text with the one line
    "Total Organizations Found", filled with [total_entries] of the
    answer (0 when missing); total pages, current page and page size are
    not part of it. *)
Theorem organizations_summary_total_only (net : Network) (params : SearchParams)
    (client : ApolloClient) (history : list Request) (l : list text_artifact) :
  fst (call (search_organizations net params) client history) = Ok (ListArtifact l) ->
  exists rq r data rest,
    request_of client (SearchOrganizations params) = Some rq
    /\ net rq = Ok r /\ json r = Ok data
    /\ l = TextArtifact (block 16
             ["Pagination Information:";
              "- Total Organizations Found: "
                ++ Py.str (field (field data "pagination" (PDict []))
                             "total_entries" (PInt 0))]) :: rest.
Proof.
  intros H.
  apply (call_success net (SearchOrganizations params)) in H
    as (rq & r & data & rest & Hrq & Hnet & Hj & -> & _).
  exists rq, r, data, rest. auto.
Qed.

Lemma organizations_summary_total_only_witness :
  exists rq r data rest,
    request_of sample_client (SearchOrganizations (mk_search_params [])) = Some rq
    /\ answering sample_page rq = Ok r /\ json r = Ok data
    /\ [organizations_pagination_info (PInt 42)]
       = TextArtifact (block 16
           ["Pagination Information:";
            "- Total Organizations Found: "
              ++ Py.str (field (field data "pagination" (PDict []))
                           "total_entries" (PInt 0))]) :: rest.
Proof.
  apply (organizations_summary_total_only (answering sample_page)
           (mk_search_params []) sample_client []).
  reflexivity.
Defined.

(** C9, as stated, fails: a person whose [organization] is [null] makes
    [search_people] end with an [AttributeError]. *)
Lemma null_organization_counterexample :
  shaped (SearchPeople (mk_search_params [])) null_organization = false
  /\ fst (call (search_people (answering null_organization) (mk_search_params []))
            sample_client [])
     = Raise (mk_exn AttributeError "'NoneType' object has no attribute 'get'")
  /\ ~ exists l,
         fst (call (search_people (answering null_organization)
                      (mk_search_params [])) sample_client [])
         = Ok (ListArtifact l).
Proof.
  split; [reflexivity|]. split; [vm_compute; reflexivity|].
  intros [l H]. vm_compute in H. discriminate.
Qed.

(** C9, amended: keys missing from the decoded answer never make a call
    fail.  When the answer is a JSON object in which every key that is
    present holds a value of the expected JSON type (an object for
    [pagination], [organization] and the people, organizations, matches
    and employment entries; an object or [null] for [primary_phone]; a
    list for [people], [organizations], [matches] and
    [employment_history]; a list of strings for [departments], [functions]
    and [languages]), the call returns the summary followed by one record
    per entry; the empty object is such an answer. *)
Theorem shaped_answer_listed (net : Network) (a : activity) (client : ApolloClient)
    (history : list Request) (rq : Request) (r : Response) (data : pyval) :
  request_of client a = Some rq ->
  net rq = Ok r -> raise_for_status r = None -> json r = Ok data ->
  shaped a data = true ->
  shaped a (PDict []) = true
  /\ exists rest,
       fst (call (run net a) client history)
         = Ok (ListArtifact (summary_of a data :: rest))
       /\ length rest = length (entries_of a data).
Proof.
  intros Hrq Hnet Hst Hj Hs. split; [now destruct a|].
  rewrite run_spec, Hrq, Hnet. cbn [fst outcome].
  unfold after_response. rewrite Hst, Hj.
  destruct (listing_shaped a data Hs) as [l Hl]. rewrite Hl.
  apply listing_head in Hl as (rest & -> & Hlen). eauto.
Qed.

Lemma shaped_answer_listed_witness :
  shaped (SearchPeople (mk_search_params [])) (PDict []) = true
  /\ exists rest,
       fst (call (run (answering (PDict [])) (SearchPeople (mk_search_params [])))
              sample_client [])
         = Ok (ListArtifact
                 (summary_of (SearchPeople (mk_search_params [])) (PDict []) :: rest))
       /\ length rest
          = length (entries_of (SearchPeople (mk_search_params [])) (PDict [])).
Proof.
  apply (shaped_answer_listed (answering (PDict []))
           (SearchPeople (mk_search_params [])) sample_client []
           (mk_request SEARCH_ENDPOINT (search_people_payload [])
              (headers_for sample_client) (timeout sample_client))
           (mk_response (Py.repr (PDict [])) None (Ok (PDict []))) (PDict []));
    reflexivity.
Defined.

(** ** Determinism *)

(** C10: the result of a call is a function of the parameters, the client
    and the answer to the request the call posts: two runs whose remote
    sides answer that request alike end alike, whatever was posted before,
    and the client of the final state is the client of the call. *)
Theorem call_deterministic (a : activity) (client : ApolloClient)
    (net1 net2 : Network) (history1 history2 : list Request) :
  (forall rq, request_of client a = Some rq -> net1 rq = net2 rq) ->
  fst (call (run net1 a) client history1) = fst (call (run net2 a) client history2)
  /\ self (snd (call (run net1 a) client history1)) = client
  /\ self (snd (call (run net2 a) client history2)) = client.
Proof.
  intros H. rewrite !run_spec.
  destruct (request_of client a) as [rq|]; cbn; auto.
  now rewrite (H rq eq_refl).
Qed.

Lemma call_deterministic_witness :
  fst (call (run (answering sample_page) (SearchPeople (mk_search_params [])))
         sample_client [])
  = fst (call (run (answering sample_page) (SearchPeople (mk_search_params [])))
           sample_client
           [mk_request BULK_MATCH_ENDPOINT [] [] 3])
  /\ self (snd (call (run (answering sample_page)
                        (SearchPeople (mk_search_params []))) sample_client []))
     = sample_client
  /\ self (snd (call (run (answering sample_page)
                        (SearchPeople (mk_search_params []))) sample_client
                  [mk_request BULK_MATCH_ENDPOINT [] [] 3]))
     = sample_client.
Proof.
  apply (call_deterministic (SearchPeople (mk_search_params [])) sample_client
           (answering sample_page) (answering sample_page) []
           [mk_request BULK_MATCH_ENDPOINT [] [] 3]).
  intros rq _. reflexivity.
Defined.

(** * Further properties *)

(** ** Enrichment targets *)

Lemma cleaned_kept (person : list (string * pyval)) :
  Forall (fun kv => kept (snd kv) = true) (cleaned person).
Proof.
  apply Forall_forall. intros kv H. unfold cleaned in H.
  now apply filter_In in H as [_ H].
Qed.

Lemma accepted_cleanable (persons : list (list (string * pyval))) :
  forallb accepted persons = true -> forallb cleanable persons = true.
Proof.
  induction persons as [|p persons IH]; cbn [forallb]; auto.
  intros H. apply andb_prop in H as [Hp H]. unfold accepted in Hp.
  apply andb_prop in Hp as [-> _]. cbn [andb]. auto.
Qed.

Lemma enrich_request (client : ApolloClient) (params : EnrichParams) :
  forallb accepted (details params) = true ->
  request_of client (EnrichPeople params)
  = Some (mk_request BULK_MATCH_ENDPOINT
            (enrich_people_payload (map cleaned (details params)))
            (headers_for client) (timeout client)).
Proof.
  intros H. cbn [request_of].
  now rewrite (clean_details_accepts _ [] H).
Qed.

(** X1: when every target can be cleaned (each of its values is a str or
    a false value) and has a non-blank email or profile URL,
    [enrich_people] posts one request to the bulk-match endpoint; its
    payload lists the targets in their order, each with only the keys whose
    value is a str that is not blank, and sets both reveal flags to
    [False]. *)
Theorem identified_targets_posted (net : Network) (params : EnrichParams)
    (client : ApolloClient) (history : list Request) :
  forallb accepted (details params) = true ->
  exists rq,
    posted (snd (call (enrich_people net params) client history))
      = (history ++ [rq])%list
    /\ req_url rq = BULK_MATCH_ENDPOINT
    /\ req_json rq
       = [("details", PList (map PDict (map cleaned (details params))));
          ("reveal_personal_emails", PBool false);
          ("reveal_phone_number", PBool false)]
    /\ Forall (Forall (fun kv => kept (snd kv) = true))
         (map cleaned (details params))
    /\ fst (call (enrich_people net params) client history)
       = outcome enrichment_listing (net rq).
Proof.
  intros H.
  destruct (posted_by_call net (EnrichPeople params) client history _
              (enrich_request client params H)) as [Hp Hr].
  eexists. split; [exact Hp|]. split; [reflexivity|]. split; [reflexivity|].
  split; [|exact Hr].
  apply Forall_forall. intros p Hin. apply in_map_iff in Hin as (q & <- & _).
  apply cleaned_kept.
Qed.

Lemma identified_targets_posted_witness :
  exists rq,
    posted (snd (call (enrich_people (answering (PDict []))
                         (mk_enrich_params
                            [[("email", PStr "x@y.com");
                              ("linkedin_url", PStr NBSP);
                              ("score", PInt 0)]]))
                   sample_client []))
      = [rq]
    /\ req_url rq = BULK_MATCH_ENDPOINT
    /\ req_json rq
       = [("details", PList [PDict [("email", PStr "x@y.com")]]);
          ("reveal_personal_emails", PBool false);
          ("reveal_phone_number", PBool false)]
    /\ Forall (Forall (fun kv => kept (snd kv) = true))
         [[("email", PStr "x@y.com")]]
    /\ fst (call (enrich_people (answering (PDict []))
                    (mk_enrich_params
                       [[("email", PStr "x@y.com");
                         ("linkedin_url", PStr NBSP);
                         ("score", PInt 0)]]))
              sample_client [])
       = outcome enrichment_listing (answering (PDict []) rq).
Proof.
  apply (identified_targets_posted (answering (PDict []))
           (mk_enrich_params
              [[("email", PStr "x@y.com"); ("linkedin_url", PStr NBSP);
                ("score", PInt 0)]])
           sample_client []).
  reflexivity.
Defined.

(** X2: [enrich_people] returns the validation error exactly when the
    cleaning loop reaches a target that has neither a non-blank email nor
    a non-blank profile URL: a target that can be cleaned and is not
    identified, after targets that were all accepted.  No failure of the
    HTTP exchange is reported with that message, and a target with a value
    that is true and no str raises instead. *)
Theorem validation_error_exactly (net : Network) (params : EnrichParams)
    (client : ApolloClient) (history : list Request) :
  fst (call (enrich_people net params) client history)
    = Ok (ErrorArtifact VALIDATION_MESSAGE)
  <-> exists before person after,
        details params = (before ++ person :: after)%list
        /\ forallb accepted before = true
        /\ cleanable person = true /\ identified person = false.
Proof.
  change (enrich_people net params) with (run net (EnrichPeople params)).
  rewrite run_spec. cbn [request_of refusal]. split.
  - destruct (clean_details (details params) []) as [[error|c]|e] eqn:E;
      cbn [fst]; intros H.
    + now apply clean_details_returns in E as [_ E].
    + now apply (outcome_not_validation (EnrichPeople params)) in H.
    + discriminate.
  - intros (before & person & after & Hd & Hb & Hc & Hi).
    rewrite Hd.
    now rewrite (clean_details_rejects _ _ _ _ (accepted_cleanable _ Hb) Hc Hi).
Qed.

Lemma lstrip_whitespace (w rest : string) :
  In w Str.WHITESPACE -> Str.lstrip (w ++ rest) = Str.lstrip rest.
Proof.
  intros H. vm_compute in H.
  repeat (destruct H as [<- | H]; [reflexivity|]). destruct H.
Qed.

Lemma blank_strip (v : string) : blank v -> Str.strip v = EmptyString.
Proof.
  intros (ws & Hws & ->).
  assert (Str.lstrip (fold_right append EmptyString ws) = EmptyString) as H.
  { induction Hws as [|w ws Hw Hws IH]; [reflexivity|].
    cbn [fold_right]. now rewrite (lstrip_whitespace w _ Hw). }
  unfold Str.strip. now rewrite H.
Qed.

Lemma space_whitespace : In " " Str.WHITESPACE.
Proof. do 9 right. left. reflexivity. Qed.

Lemma NBSP_whitespace : In NBSP Str.WHITESPACE.
Proof. do 11 right. left. reflexivity. Qed.

(** X3: a target all of whose values are strings of whitespace only,
    ASCII or not, is treated like a target without identifiers: when the
    targets before it can be cleaned, the whole call is rejected with the
    validation error and nothing is posted, whatever stands after it. *)
Theorem blank_target_rejected (net : Network) (params : EnrichParams)
    (client : ApolloClient) (history : list Request)
    (before after : list (list (string * pyval)))
    (person : list (string * pyval)) :
  details params = (before ++ person :: after)%list ->
  forallb cleanable before = true ->
  (forall k v, In (k, v) person -> exists s, v = PStr s /\ blank s) ->
  rejected (call (enrich_people net params) client history) history.
Proof.
  intros Hd Hb Hblank.
  assert (Hc : cleanable person = true).
  { apply forallb_forall. intros [k v] Hin.
    destruct (Hblank k v Hin) as (s & -> & _). reflexivity. }
  assert (Hi : identified person = false).
  { unfold identified, supplies.
    assert (forall k, existsb (fun kv => String.eqb k (fst kv) && kept (snd kv))
                        person = false) as Hk.
    { intros k. destruct (existsb _ person) eqn:E; auto.
      apply existsb_exists in E as ([k' v] & Hkv & E). cbn [fst snd] in E.
      apply andb_prop in E as [_ E].
      destruct (Hblank k' v Hkv) as (s & -> & Hs).
      cbn [kept] in E. unfold nonblank in E.
      rewrite (blank_strip s Hs) in E. discriminate. }
    now rewrite !Hk. }
  unfold rejected.
  change (enrich_people net params) with (run net (EnrichPeople params)).
  rewrite run_spec. cbn [request_of refusal]. rewrite Hd.
  rewrite (clean_details_rejects _ _ _ _ Hb Hc Hi). auto.
Qed.

Lemma blank_target_rejected_witness :
  rejected (call (enrich_people (answering (PDict []))
                    (mk_enrich_params
                       [[("email", PStr "x@y.com")];
                        [("email", PStr "  "); ("linkedin_url", PStr NBSP)];
                        [("id", PInt 5)]]))
              sample_client []) [].
Proof.
  apply (blank_target_rejected (answering (PDict []))
           (mk_enrich_params
              [[("email", PStr "x@y.com")];
               [("email", PStr "  "); ("linkedin_url", PStr NBSP)];
               [("id", PInt 5)]])
           sample_client []
           [[("email", PStr "x@y.com")]] [[("id", PInt 5)]]
           [("email", PStr "  "); ("linkedin_url", PStr NBSP)]).
  - reflexivity.
  - reflexivity.
  - intros k v [H | [H | []]]; inversion H.
    + exists "  ". split; [reflexivity|]. exists [" "; " "].
      split; [|reflexivity].
      repeat constructor; apply space_whitespace.
    + exists NBSP. split; [reflexivity|]. exists [NBSP].
      split; [|reflexivity].
      repeat constructor; apply NBSP_whitespace.
Defined.

(** ** Requests *)

(** X5: a call never retries.  Whatever the remote side does, a call adds
    at most one request to those posted before, which it leaves as they
    are.  A call that returns the validation error has added none; a call
    that adds none has returned the validation error or has raised the
    [AttributeError] of the cleaning. *)
Theorem at_most_one_post (net : Network) (a : activity) (client : ApolloClient)
    (history : list Request) :
  exists added,
    posted (snd (call (run net a) client history)) = (history ++ added)%list
    /\ (length added <= 1)%nat
    /\ (fst (call (run net a) client history)
          = Ok (ErrorArtifact VALIDATION_MESSAGE) ->
        added = [])
    /\ (added = [] ->
        fst (call (run net a) client history)
          = Ok (ErrorArtifact VALIDATION_MESSAGE)
        \/ exists e,
             fst (call (run net a) client history) = Raise e
             /\ exn_cls e = AttributeError).
Proof.
  rewrite run_spec. destruct (request_of client a) as [rq|] eqn:E; cbn [fst snd posted].
  - exists [rq]. split; [reflexivity|]. split; [auto|]. split.
    + intros H. now apply outcome_not_validation in H.
    + discriminate.
  - exists []. split; [now rewrite app_nil_r|]. split; [auto|]. split; [auto|].
    intros _. destruct a as [p|p|p]; cbn [request_of] in E; try discriminate.
    cbn [refusal].
    destruct (clean_details (details p) []) as [[error|c]|e] eqn:Ec.
    + apply clean_details_returns in Ec as [-> _]. auto.
    + discriminate.
    + right. exists e. split; auto. now apply clean_details_raises in Ec.
Qed.

(** X6: the request of a call goes to the endpoint of its activity, with
    the timeout of the client, the API key of the client in the header
    [x-api-key], and JSON announced in both [accept] and [Content-Type]. *)
Theorem request_envelope (net : Network) (a : activity) (client : ApolloClient)
    (history : list Request) (rq : Request) :
  posted (snd (call (run net a) client history)) = (history ++ [rq])%list ->
  req_url rq = endpoint_of a
  /\ req_timeout rq = timeout client
  /\ Dict.get "x-api-key" (req_headers rq) = Some (api_key client)
  /\ Dict.get "accept" (req_headers rq) = Some "application/json"
  /\ Dict.get "Content-Type" (req_headers rq) = Some "application/json".
Proof.
  rewrite run_spec. destruct (request_of client a) as [rq'|] eqn:E; cbn [snd posted].
  - intros H. apply app_inv_head in H. inversion H; subst rq'.
    destruct a as [p|p|p]; cbn [request_of] in E.
    + inversion E. cbn. auto.
    + inversion E. cbn. auto.
    + destruct (clean_details (details p) []) as [[error|c]|e];
        inversion E. cbn. auto.
  - intros H. rewrite <- (app_nil_r history) in H at 1.
    apply app_inv_head in H. discriminate.
Qed.

Lemma request_envelope_witness :
  req_url (mk_request ORGANIZATION_SEARCH_ENDPOINT
             (search_organizations_payload [])
             (headers_for sample_client) (timeout sample_client))
    = endpoint_of (SearchOrganizations (mk_search_params []))
  /\ req_timeout (mk_request ORGANIZATION_SEARCH_ENDPOINT
                    (search_organizations_payload [])
                    (headers_for sample_client) (timeout sample_client))
     = timeout sample_client
  /\ Dict.get "x-api-key"
       (req_headers (mk_request ORGANIZATION_SEARCH_ENDPOINT
                       (search_organizations_payload [])
                       (headers_for sample_client) (timeout sample_client)))
     = Some (api_key sample_client)
  /\ Dict.get "accept"
       (req_headers (mk_request ORGANIZATION_SEARCH_ENDPOINT
                       (search_organizations_payload [])
                       (headers_for sample_client) (timeout sample_client)))
     = Some "application/json"
  /\ Dict.get "Content-Type"
       (req_headers (mk_request ORGANIZATION_SEARCH_ENDPOINT
                       (search_organizations_payload [])
                       (headers_for sample_client) (timeout sample_client)))
     = Some "application/json".
Proof.
  apply (request_envelope (unreachable "no route to host")
           (SearchOrganizations (mk_search_params [])) sample_client []).
  reflexivity.
Defined.

(** ** Payloads of the searches *)

Lemma incl_by_check (l m : list string) :
  forallb (fun k => existsb (String.eqb k) m) l = true -> incl l m.
Proof.
  intros H k Hk. rewrite forallb_forall in H. apply H in Hk.
  apply existsb_exists in Hk as (k' & Hin & E).
  apply String.eqb_eq in E. now subst.
Qed.

Lemma NoDup_by_check (l : list string) : distinct l = true -> NoDup l.
Proof.
  induction l as [|k l IH]; cbn; intros H; constructor.
  - apply andb_prop in H as [H _]. apply negb_true_iff in H.
    intros Hin. assert (existsb (String.eqb k) l = true) as E.
    { apply existsb_exists. exists k. split; auto. apply String.eqb_refl. }
    congruence.
  - apply andb_prop in H as [_ H]. auto.
Qed.

(** X7: the payload of a search holds only the filter fields of that
    search and the fixed pagination fields, each at most once: a key of the
    criteria that is not one of the filters is never forwarded, and the
    organization search never carries [contact_email_status]. *)
Theorem payload_keys_known (net : Network) (client : ApolloClient)
    (history : list Request) (params : SearchParams) :
  (exists rq,
     posted (snd (call (search_people net params) client history))
       = (history ++ [rq])%list
     /\ incl (Dict.keys (req_json rq)) PEOPLE_PAYLOAD_KEYS
     /\ NoDup (Dict.keys (req_json rq)))
  /\ (exists rq,
        posted (snd (call (search_organizations net params) client history))
          = (history ++ [rq])%list
        /\ incl (Dict.keys (req_json rq)) ORGANIZATION_PAYLOAD_KEYS
        /\ NoDup (Dict.keys (req_json rq))
        /\ Dict.get "contact_email_status" (req_json rq) = None).
Proof.
  split.
  - eexists. split.
    + exact (proj1 (posted_by_call net (SearchPeople params) client history
                      _ eq_refl)).
    + cbn [req_json]. unfold search_people_payload.
      destruct (get_truthy (values params) "person_titles"),
        (get_truthy (values params) "person_locations"),
        (get_truthy (values params) "organization_locations"),
        (get_truthy (values params) "organization_num_employees_ranges"),
        (get_truthy (values params) "q_organization_keyword_tags"),
        (get_truthy (values params) "q_organization_domains");
        (split; [apply incl_by_check | apply NoDup_by_check]; reflexivity).
  - eexists. split.
    + exact (proj1 (posted_by_call net (SearchOrganizations params) client history
                      _ eq_refl)).
    + cbn [req_json]. unfold search_organizations_payload.
      destruct (get_truthy (values params) "organization_num_employees_ranges"),
        (get_truthy (values params) "organization_locations"),
        (get_truthy (values params) "organization_not_locations"),
        (get_truthy (values params) "q_organization_keyword_tags");
        (split; [apply incl_by_check; reflexivity|];
         split; [apply NoDup_by_check; reflexivity | reflexivity]).
Qed.

(** X8: a filter field bound to a non-empty list is forwarded: as the same
    list of strings for every filter of both searches (keyword tags
    included), except the domains of the people search, which go out as
    one string, the entries joined by newlines. *)
Theorem filters_forwarded (net : Network) (client : ApolloClient)
    (history : list Request) (params : SearchParams) (k : string)
    (l : list string) :
  Dict.get k (values params) = Some l -> l <> [] ->
  (In k PEOPLE_FILTERS ->
   exists rq,
     posted (snd (call (search_people net params) client history))
       = (history ++ [rq])%list
     /\ Dict.get k (req_json rq)
        = Some (if String.eqb k "q_organization_domains"
                then PStr (String.concat Str.nl l)
                else PList (map PStr l)))
  /\ (In k ORGANIZATION_FILTERS ->
      exists rq,
        posted (snd (call (search_organizations net params) client history))
          = (history ++ [rq])%list
        /\ Dict.get k (req_json rq) = Some (PList (map PStr l))).
Proof.
  intros Hk Hl.
  assert (get_truthy (values params) k = Some l) as Ht.
  { unfold get_truthy. rewrite Hk. now destruct l. }
  split; intros Hin.
  - eexists. split.
    + exact (proj1 (posted_by_call net (SearchPeople params) client history
                      _ eq_refl)).
    + cbn [req_json]. now rewrite people_payload_filter, Ht.
  - eexists. split.
    + exact (proj1 (posted_by_call net (SearchOrganizations params) client history
                      _ eq_refl)).
    + cbn [req_json]. now rewrite organizations_payload_filter, Ht.
Qed.

Lemma filters_forwarded_witness :
  exists rq,
    posted (snd (call (search_people (answering (PDict []))
                         (mk_search_params
                            [("q_organization_keyword_tags", ["software"; "sales"])]))
                   sample_client []))
      = [rq]
    /\ Dict.get "q_organization_keyword_tags" (req_json rq)
       = Some (PList [PStr "software"; PStr "sales"]).
Proof.
  apply (proj1 (filters_forwarded (answering (PDict [])) sample_client []
                  (mk_search_params
                     [("q_organization_keyword_tags", ["software"; "sales"])])
                  "q_organization_keyword_tags" ["software"; "sales"]
                  eq_refl ltac:(discriminate))).
  cbn. auto 10.
Defined.

(** X9: whatever the criteria, the payload that [search_organizations]
    posts binds [page] to 1 and [per_page] to 10. *)
Theorem organizations_payload_fixed_fields (net : Network) (client : ApolloClient)
    (history : list Request) (params : SearchParams) :
  exists rq,
    posted (snd (call (search_organizations net params) client history))
      = (history ++ [rq])%list
    /\ Dict.get "page" (req_json rq) = Some (PInt 1)
    /\ Dict.get "per_page" (req_json rq) = Some (PInt 10).
Proof.
  eexists. split.
  - exact (proj1 (posted_by_call net (SearchOrganizations params) client history
                    _ eq_refl)).
  - cbn [req_json]. unfold search_organizations_payload. cbv zeta. split.
    + rewrite (get_set_other "page" "per_page") by discriminate.
      apply get_set_same.
    + apply get_set_same.
Qed.

(** ** Handling of the answer *)

Lemma status_error_reported_witness :
  fst (call (run (rejecting "500 Server Error: Internal Server Error" "oops")
               (SearchPeople (mk_search_params []))) sample_client [])
  = Ok (ErrorArtifact "Request failed: 500 Server Error: Internal Server Error").
Proof.
  apply (status_error_reported
           (rejecting "500 Server Error: Internal Server Error" "oops")
           (SearchPeople (mk_search_params [])) sample_client []
           (mk_request SEARCH_ENDPOINT (search_people_payload [])
              (headers_for sample_client) (timeout sample_client))
           (mk_response "oops"
              (Some (mk_exn HTTPError "500 Server Error: Internal Server Error"))
              (Raise (mk_exn InvalidJSONError "Expecting value")))
           (mk_exn HTTPError "500 Server Error: Internal Server Error"));
    reflexivity.
Defined.

Lemma decode_error_reported_witness :
  fst (call (run (garbled ValueError "Expecting value" "<html>")
               (SearchOrganizations (mk_search_params []))) sample_client [])
  = Ok (ErrorArtifact "Failed to decode JSON from response").
Proof.
  apply (decode_error_reported (garbled ValueError "Expecting value" "<html>")
           (SearchOrganizations (mk_search_params [])) sample_client []
           (mk_request ORGANIZATION_SEARCH_ENDPOINT (search_organizations_payload [])
              (headers_for sample_client) (timeout sample_client))
           (mk_response "<html>" None (Raise (mk_exn ValueError "Expecting value")))
           (mk_exn ValueError "Expecting value"));
    reflexivity.
Defined.

Lemma requests_decode_error_reported_witness :
  fst (call (run (garbled InvalidJSONError "Expecting value" "<html>")
               (SearchOrganizations (mk_search_params []))) sample_client [])
  = Ok (ErrorArtifact "Request failed: Expecting value").
Proof.
  apply (requests_decode_error_reported
           (garbled InvalidJSONError "Expecting value" "<html>")
           (SearchOrganizations (mk_search_params [])) sample_client []
           (mk_request ORGANIZATION_SEARCH_ENDPOINT (search_organizations_payload [])
              (headers_for sample_client) (timeout sample_client))
           (mk_response "<html>" None
              (Raise (mk_exn InvalidJSONError "Expecting value")))
           "Expecting value");
    reflexivity.
Defined.

(** X13: when [requests.post] itself raises, the local variable [response]
    stays unbound: a [RequestException] of any class ends the call with an
    [UnboundLocalError]; a [ValueError] that is no [RequestException] is
    reported as a failure to decode JSON, although nothing was decoded;
    any other exception leaves the call as it is. *)
Theorem post_failure_outcomes (net : Network) (a : activity) (client : ApolloClient)
    (history : list Request) (rq : Request) (e : exn) :
  request_of client a = Some rq -> net rq = Raise e ->
  response (snd (call (run net a) client history)) = None
  /\ (is_RequestException (exn_cls e) = true ->
      fst (call (run net a) client history) = Raise UNBOUND_RESPONSE)
  /\ (is_RequestException (exn_cls e) = false -> is_ValueError (exn_cls e) = true ->
      fst (call (run net a) client history)
        = Ok (ErrorArtifact "Failed to decode JSON from response"))
  /\ (escapes e = true -> fst (call (run net a) client history) = Raise e).
Proof.
  intros Hrq Hnet. rewrite run_spec, Hrq, Hnet. cbn. unfold handled, escapes.
  split; [reflexivity|].
  destruct (is_RequestException (exn_cls e)), (is_ValueError (exn_cls e));
    cbn; repeat split; auto; discriminate.
Qed.

Lemma post_failure_outcomes_witness :
  response (snd (call (run (fun _ => Raise (mk_exn ValueError "bad timeout"))
                         (SearchPeople (mk_search_params [])))
                   (mk_client "secret" 0) []))
    = None
  /\ (is_RequestException ValueError = true ->
      fst (call (run (fun _ => Raise (mk_exn ValueError "bad timeout"))
                   (SearchPeople (mk_search_params [])))
             (mk_client "secret" 0) [])
        = Raise UNBOUND_RESPONSE)
  /\ (is_RequestException ValueError = false -> is_ValueError ValueError = true ->
      fst (call (run (fun _ => Raise (mk_exn ValueError "bad timeout"))
                   (SearchPeople (mk_search_params [])))
             (mk_client "secret" 0) [])
        = Ok (ErrorArtifact "Failed to decode JSON from response"))
  /\ (escapes (mk_exn ValueError "bad timeout") = true ->
      fst (call (run (fun _ => Raise (mk_exn ValueError "bad timeout"))
                   (SearchPeople (mk_search_params [])))
             (mk_client "secret" 0) [])
        = Raise (mk_exn ValueError "bad timeout")).
Proof.
  apply (post_failure_outcomes (fun _ => Raise (mk_exn ValueError "bad timeout"))
           (SearchPeople (mk_search_params [])) (mk_client "secret" 0) []
           (mk_request SEARCH_ENDPOINT (search_people_payload [])
              (headers_for (mk_client "secret" 0)) 0)
           (mk_exn ValueError "bad timeout"));
    reflexivity.
Defined.

(** ** Exceptions while an answer is listed *)

Lemma rbind_raise {A B} (c : result A) (k : A -> result B) (e : exn) :
  rbind c k = Raise e -> c = Raise e \/ exists a, c = Ok a /\ k a = Raise e.
Proof.
  destruct c as [a|e']; cbn; intros H.
  - right. exists a. auto.
  - left. now inversion H.
Qed.

Lemma get_raise (v : pyval) (k : string) (default : pyval) (e : exn) :
  Py.get v k default = Raise e -> escapes e = true.
Proof.
  destruct v; cbn; try discriminate; intros H; inversion H; reflexivity.
Qed.

Lemma len_raise (v : pyval) (e : exn) : Py.len v = Raise e -> escapes e = true.
Proof.
  destruct v; cbn; try discriminate; intros H; inversion H; reflexivity.
Qed.

Lemma iter_raise (v : pyval) (e : exn) : Py.iter v = Raise e -> escapes e = true.
Proof.
  destruct v; cbn; try discriminate; intros H; inversion H; reflexivity.
Qed.

Lemma join_items_raise (items : list pyval) (i : nat) (e : exn) :
  Py.join_items i items = Raise e -> escapes e = true.
Proof.
  revert i. induction items as [|v items IH]; cbn; intros i H; [discriminate|].
  destruct v; try (inversion H; reflexivity).
  apply rbind_raise in H as [H | (ss & _ & H)]; [eauto | discriminate].
Qed.

Lemma join_raise (sep : string) (v : pyval) (e : exn) :
  Py.join sep v = Raise e -> escapes e = true.
Proof.
  unfold Py.join. destruct (Py.iter v) as [items|e'].
  - intros H. apply rbind_raise in H as [H | (ss & _ & H)]; [|discriminate].
    now apply join_items_raise in H.
  - intros H. inversion H. reflexivity.
Qed.

Lemma first_current_raise (jobs : list pyval) (e : exn) :
  first_current jobs = Raise e -> escapes e = true.
Proof.
  induction jobs as [|job jobs IH]; cbn; intros H; [discriminate|].
  apply rbind_raise in H as [H | (c & _ & H)].
  - now apply get_raise in H.
  - destruct (Py.truthy c); [discriminate | auto].
Qed.

(** One step through a sequence of reads: the read at the head raised an
    exception that escapes, or the rest of the sequence did. *)
Ltac raise_step H :=
  apply rbind_raise in H as [H | (? & _ & H)];
  [ first [ apply get_raise in H; exact H
          | apply len_raise in H; exact H
          | apply iter_raise in H; exact H
          | apply join_raise in H; exact H
          | apply first_current_raise in H; exact H
          | destruct (Py.truthy _); apply get_raise in H; exact H ]
  | ].

Lemma format_person_raise (person : pyval) (e : exn) :
  format_person person = Raise e -> escapes e = true.
Proof.
  unfold format_person. intros H. cbv zeta in H.
  repeat raise_step H. discriminate.
Qed.

Lemma format_org_raise (org : pyval) (e : exn) :
  format_org org = Raise e -> escapes e = true.
Proof.
  unfold format_org. intros H. repeat raise_step H. discriminate.
Qed.

Lemma format_match_raise (person : pyval) (e : exn) :
  format_match person = Raise e -> escapes e = true.
Proof.
  unfold format_match. intros H. repeat raise_step H. discriminate.
Qed.

Lemma for_each_raise (format : pyval -> result text_artifact)
    (items : list pyval) (acc : list text_artifact) (e : exn) :
  (forall x e', format x = Raise e' -> escapes e' = true) ->
  Py.for_each items (append_formatted format) acc = Raise e -> escapes e = true.
Proof.
  intros Hf. revert acc. induction items as [|x items IH]; cbn; intros acc H.
  - discriminate.
  - apply rbind_raise in H as [H | (acc' & _ & H)]; [|eauto].
    unfold append_formatted in H.
    apply rbind_raise in H as [H | (r & _ & H)]; [eauto | discriminate].
Qed.

Lemma listing_raise (a : activity) (data : pyval) (e : exn) :
  listing_of a data = Raise e -> escapes e = true.
Proof.
  destruct a; cbn [listing_of];
    unfold people_listing, organizations_listing, enrichment_listing;
    intros H; cbv zeta in H; repeat raise_step H;
    (apply rbind_raise in H as [H | (? & _ & H)]; [|discriminate]).
  - apply (for_each_raise _ _ _ _ format_person_raise H).
  - apply (for_each_raise _ _ _ _ format_org_raise H).
  - apply (for_each_raise _ _ _ _ format_match_raise H).
Qed.

(** X14: once the answer is decoded, a call has two outcomes only: the whole
    list, summary first and one record per entry, or an exception that
    neither [except] clause takes.  It returns no [ErrorArtifact] and no
    shorter list: an entry that cannot be formatted loses the records
    before it too. *)
Theorem decoded_answer_outcomes (net : Network) (a : activity)
    (client : ApolloClient) (history : list Request) (rq : Request)
    (r : Response) (data : pyval) :
  request_of client a = Some rq ->
  net rq = Ok r -> raise_for_status r = None -> json r = Ok data ->
  (exists rest,
     fst (call (run net a) client history)
       = Ok (ListArtifact (summary_of a data :: rest))
     /\ length rest = length (entries_of a data))
  \/ (exists e,
        fst (call (run net a) client history) = Raise e
        /\ is_RequestException (exn_cls e) = false
        /\ is_ValueError (exn_cls e) = false).
Proof.
  intros Hrq Hnet Hst Hj. rewrite run_spec, Hrq, Hnet. cbn [fst outcome].
  unfold after_response. rewrite Hst, Hj.
  destruct (listing_of a data) as [x|e] eqn:E.
  - left. destruct (listing_is_list a data x E) as [l ->].
    apply listing_head in E as (rest & -> & Hlen). eauto.
  - right. exists e. apply listing_raise in E. unfold escapes in E.
    apply andb_prop in E as [E1 E2].
    apply negb_true_iff in E1. apply negb_true_iff in E2.
    unfold handled. rewrite E1, E2. auto.
Qed.

Lemma decoded_answer_outcomes_witness :
  (exists rest,
     fst (call (run (answering null_organization)
                  (SearchPeople (mk_search_params []))) sample_client [])
       = Ok (ListArtifact
               (summary_of (SearchPeople (mk_search_params [])) null_organization
                  :: rest))
     /\ length rest
        = length (entries_of (SearchPeople (mk_search_params []))
                    null_organization))
  \/ (exists e,
        fst (call (run (answering null_organization)
                     (SearchPeople (mk_search_params []))) sample_client [])
          = Raise e
        /\ is_RequestException (exn_cls e) = false
        /\ is_ValueError (exn_cls e) = false).
Proof.
  apply (decoded_answer_outcomes (answering null_organization)
           (SearchPeople (mk_search_params [])) sample_client []
           (mk_request SEARCH_ENDPOINT (search_people_payload [])
              (headers_for sample_client) (timeout sample_client))
           (mk_response (Py.repr null_organization) None (Ok null_organization))
           null_organization);
    reflexivity.
Defined.

(** X15: a decoded answer that is not a JSON object (a list, a string, a
    number, a boolean, [null]) ends each of the three activities with the
    [AttributeError] of its first [data.get]. *)
Theorem non_object_answer_raises (net : Network) (a : activity)
    (client : ApolloClient) (history : list Request) (rq : Request)
    (r : Response) (data : pyval) :
  request_of client a = Some rq ->
  net rq = Ok r -> raise_for_status r = None -> json r = Ok data ->
  is_dict data = false ->
  fst (call (run net a) client history)
  = Raise (mk_exn AttributeError
             ("'" ++ Py.type_name data ++ "' object has no attribute 'get'")).
Proof.
  intros Hrq Hnet Hst Hj Hd. rewrite run_spec, Hrq, Hnet. cbn [fst outcome].
  unfold after_response. rewrite Hst, Hj.
  destruct a, data; try discriminate; reflexivity.
Qed.

Lemma non_object_answer_raises_witness :
  fst (call (run (answering (PList [])) (EnrichPeople (mk_enrich_params [])))
         sample_client [])
  = Raise (mk_exn AttributeError "'list' object has no attribute 'get'").
Proof.
  apply (non_object_answer_raises (answering (PList []))
           (EnrichPeople (mk_enrich_params [])) sample_client []
           (mk_request BULK_MATCH_ENDPOINT (enrich_people_payload [])
              (headers_for sample_client) (timeout sample_client))
           (mk_response (Py.repr (PList [])) None (Ok (PList []))) (PList []));
    reflexivity.
Defined.

(** ** Records *)

Lemma for_each_records (format : pyval -> result text_artifact)
    (items : list pyval) (acc l : list text_artifact) :
  Py.for_each items (append_formatted format) acc = Ok l ->
  exists rest,
    l = (acc ++ rest)%list /\ Forall2 (fun x r => format x = Ok r) items rest.
Proof.
  revert acc. induction items as [|x items IH]; cbn; intros acc H.
  - inversion H. exists []. split; [now rewrite app_nil_r | constructor].
  - apply rbind_ok in H as (acc' & Hx & H).
    unfold append_formatted in Hx.
    apply rbind_ok in Hx as (record & Hrec & Hx). inversion Hx; subst acc'.
    apply IH in H as (rest & -> & Hall).
    exists (record :: rest). rewrite <- app_assoc. split; [reflexivity|].
    now constructor.
Qed.

Lemma listing_records (a : activity) (data : pyval) (l : list text_artifact) :
  listing_of a data = Ok (ListArtifact l) ->
  exists rest,
    l = summary_of a data :: rest
    /\ Forall2 (fun x r => format_of a x = Ok r) (entries_of a data) rest.
Proof.
  destruct a as [params|params|params];
    cbn [listing_of summary_of entries_of format_of]; intros H.
  - unfold people_listing in H.
    read_field H pagination. read_field H total_entries.
    read_field H total_pages. read_field H people_data.
    apply rbind_ok in H as (n & _ & H).
    read_field H page. read_field H per_page.
    apply rbind_ok in H as (people & Hiter & H).
    apply rbind_ok in H as (formatted & Hloop & H).
    apply for_each_records in Hloop as (rest & -> & Hall).
    inversion H. exists rest. split; auto.
    unfold items_of. now rewrite Hiter.
  - unfold organizations_listing in H.
    read_field H pagination. read_field H total_entries.
    read_field H total_pages. read_field H organizations_data.
    apply rbind_ok in H as (n & _ & H).
    read_field H found.
    apply rbind_ok in H as (orgs & Hiter & H).
    apply rbind_ok in H as (formatted & Hloop & H).
    apply for_each_records in Hloop as (rest & -> & Hall).
    inversion H. exists rest. split; auto.
    unfold items_of. now rewrite Hiter.
  - unfold enrichment_listing in H.
    read_field H requested. read_field H enriched.
    read_field H missing. read_field H credits.
    read_field H matches.
    apply rbind_ok in H as (persons & Hiter & H).
    apply rbind_ok in H as (results & Hloop & H).
    apply for_each_records in Hloop as (rest & -> & Hall).
    inversion H. exists rest. split; auto.
    unfold items_of. now rewrite Hiter.
Qed.

(** X16: the records of a successful call follow the entries of the answer:
    after the summary, the record at each position is the formatting of the
    entry at that position, which depends on that entry alone. *)
Theorem records_follow_entries (net : Network) (a : activity)
    (client : ApolloClient) (history : list Request) (l : list text_artifact) :
  fst (call (run net a) client history) = Ok (ListArtifact l) ->
  exists rq r data rest,
    request_of client a = Some rq /\ net rq = Ok r /\ json r = Ok data
    /\ l = summary_of a data :: rest
    /\ Forall2 (fun entry record => format_of a entry = Ok record)
         (entries_of a data) rest.
Proof.
  rewrite run_spec. destruct (request_of client a) as [rq|]; cbn [fst].
  - intros H. apply outcome_list in H as (r & data & Hnet & _ & Hjson & H).
    apply listing_records in H as (rest & -> & Hall).
    exists rq, r, data, rest. auto.
  - intros H. now apply refusal_not_list in H.
Qed.

Lemma records_follow_entries_witness :
  length (entries_of (SearchOrganizations (mk_search_params []))
            sample_organizations) = 2%nat
  /\ exists rq r data rest,
       request_of sample_client (SearchOrganizations (mk_search_params []))
         = Some rq
       /\ answering sample_organizations rq = Ok r /\ json r = Ok data
       /\ match fst (call (run (answering sample_organizations)
                             (SearchOrganizations (mk_search_params [])))
                       sample_client [])
          with
          | Ok (ListArtifact l) => l
          | _ => []
          end
          = summary_of (SearchOrganizations (mk_search_params [])) data :: rest
       /\ Forall2 (fun entry record =>
                     format_of (SearchOrganizations (mk_search_params [])) entry
                     = Ok record)
            (entries_of (SearchOrganizations (mk_search_params [])) data) rest.
Proof.
  split; [reflexivity|].
  apply (records_follow_entries (answering sample_organizations)
           (SearchOrganizations (mk_search_params [])) sample_client []).
  reflexivity.
Defined.

(** ** The current employer of a match *)

Lemma first_current_skips (before rest : list pyval) :
  forallb past_job before = true ->
  first_current (before ++ rest) = first_current rest.
Proof.
  induction before as [|job before IH]; cbn [app forallb]; intros H; auto.
  apply andb_prop in H as [Hj Hb].
  destruct job as [| | | | | |d]; try discriminate.
  cbn [first_current]. rewrite get_dict. cbn [rbind].
  cbn [past_job] in Hj. apply negb_true_iff in Hj. rewrite Hj. auto.
Qed.

Lemma first_current_stops (job : pyval) (after : list pyval) :
  current_job job = true -> first_current (job :: after) = Ok job.
Proof.
  destruct job as [| | | | | |d]; try discriminate.
  cbn [current_job first_current]. intros H. rewrite get_dict. cbn [rbind].
  now rewrite H.
Qed.

Lemma format_match_lines (d : list (string * pyval)) (jobs : list pyval)
    (job : list (string * pyval)) :
  absent_or (is_list_of is_str) "departments" d = true ->
  absent_or (is_list_of is_str) "functions" d = true ->
  field (PDict d) "employment_history" (PList []) = PList jobs ->
  first_current jobs = Ok (PDict job) ->
  exists lines,
    format_match (PDict d) = Ok (TextArtifact (block 20 lines))
    /\ In ("Current Company: " ++ Py.str (field (PDict job) "organization_name" PNone))
         lines.
Proof.
  intros Hd Hf He Hj. unfold format_match.
  rewrite !get_dict. cbn [rbind]. rewrite He. cbn [Py.iter rbind].
  rewrite Hj. cbn [rbind]. rewrite !get_dict. cbn [rbind].
  destruct (join_ok ", " _ (field_shaped _ _ _ (PList []) Hd eq_refl)) as [sd ->].
  cbn [rbind].
  destruct (join_ok ", " _ (field_shaped _ _ _ (PList []) Hf eq_refl)) as [sf ->].
  cbn [rbind]. eexists. split; [reflexivity|].
  do 4 right. left. reflexivity.
Qed.

(** X17: the record of a match names as current company the organization of
    the first job of its employment history whose [current] is true.  The
    jobs after that one are not looked at, so whatever they hold, they can
    neither change the record nor make the call fail. *)
Theorem current_company_first_match (d : list (string * pyval))
    (before after : list pyval) (job : pyval) :
  absent_or (is_list_of is_str) "departments" d = true ->
  absent_or (is_list_of is_str) "functions" d = true ->
  Dict.get "employment_history" d = Some (PList (before ++ job :: after)) ->
  forallb past_job before = true -> current_job job = true ->
  exists lines,
    format_match (PDict d) = Ok (TextArtifact (block 20 lines))
    /\ In ("Current Company: " ++ Py.str (field job "organization_name" PNone)) lines.
Proof.
  intros Hd Hf He Hb Hj.
  destruct job as [| | | | | |j]; try discriminate.
  apply (format_match_lines d (before ++ PDict j :: after) j Hd Hf).
  - unfold field. now rewrite He.
  - rewrite (first_current_skips _ _ Hb). now apply first_current_stops.
Qed.

Lemma current_company_first_match_witness :
  exists lines,
    format_match
      (PDict [("name", PStr "Ann");
              ("employment_history",
               PList [PDict [("organization_name", PStr "Old"); ("current", PBool false)];
                      PDict [("organization_name", PStr "Acme"); ("current", PBool true)];
                      PNone])])
      = Ok (TextArtifact (block 20 lines))
    /\ In ("Current Company: "
             ++ Py.str (field (PDict [("organization_name", PStr "Acme");
                                      ("current", PBool true)])
                          "organization_name" PNone))
         lines.
Proof.
  apply (current_company_first_match
           [("name", PStr "Ann");
            ("employment_history",
             PList [PDict [("organization_name", PStr "Old"); ("current", PBool false)];
                    PDict [("organization_name", PStr "Acme"); ("current", PBool true)];
                    PNone])]
           [PDict [("organization_name", PStr "Old"); ("current", PBool false)]]
           [PNone]
           (PDict [("organization_name", PStr "Acme"); ("current", PBool true)]));
    reflexivity.
Defined.

(** X18: when a match has no employment history, or one in which no job is
    current, its record reads "Current Company: None". *)
Theorem no_current_company (d : list (string * pyval)) :
  absent_or (is_list_of is_str) "departments" d = true ->
  absent_or (is_list_of is_str) "functions" d = true ->
  Dict.get "employment_history" d = None
  \/ (exists jobs,
        Dict.get "employment_history" d = Some (PList jobs)
        /\ forallb past_job jobs = true) ->
  exists lines,
    format_match (PDict d) = Ok (TextArtifact (block 20 lines))
    /\ In "Current Company: None" lines.
Proof.
  intros Hd Hf [He | (jobs & He & Hp)].
  - apply (format_match_lines d [] [] Hd Hf).
    + unfold field. now rewrite He.
    + reflexivity.
  - apply (format_match_lines d jobs [] Hd Hf).
    + unfold field. now rewrite He.
    + rewrite <- (app_nil_r jobs). now rewrite (first_current_skips _ _ Hp).
Qed.

Lemma no_current_company_witness :
  exists lines,
    format_match (PDict [("name", PStr "Ann")]) = Ok (TextArtifact (block 20 lines))
    /\ In "Current Company: None" lines.
Proof.
  apply (no_current_company [("name", PStr "Ann")]); try reflexivity.
  left. reflexivity.
Defined.

(** ** The phone of an organization *)

Lemma format_org_lines (d : list (string * pyval)) (phone : pyval) :
  absent_or (is_list_of is_str) "languages" d = true ->
  (if Py.truthy (field (PDict d) "primary_phone" (PDict []))
   then Py.get (field (PDict d) "primary_phone" (PDict [])) "number" PNone
   else Py.get (PDict d) "phone" PNone) = Ok phone ->
  exists lines,
    format_org (PDict d) = Ok (TextArtifact (block 20 lines))
    /\ In ("Phone: " ++ Py.str phone) lines.
Proof.
  intros Hl Hp. unfold format_org.
  change (Py.get (PDict d) "primary_phone" (PDict []))
    with (Ok (field (PDict d) "primary_phone" (PDict []))).
  cbv beta iota delta [rbind]. rewrite Hp.
  destruct (join_ok ", " _ (field_shaped _ _ _ (PList []) Hl eq_refl)) as [sl Hs].
  cbn [Py.get]. fold (field (PDict d) "languages" (PList [])). rewrite Hs.
  eexists. split; [reflexivity|].
  do 6 right. left. reflexivity.
Qed.

(** X19: the phone of an organization record is the [number] of its
    [primary_phone] when that is a non-empty object, even if it has no
    [number] while a flat [phone] is there; it is the flat [phone] when
    [primary_phone] is missing, [null] or the empty object; and a
    [primary_phone] that is a non-empty string makes the formatting raise
    an [AttributeError]. *)
Theorem phone_from_primary_or_flat (d : list (string * pyval)) :
  absent_or (is_list_of is_str) "languages" d = true ->
  (forall x p,
     Dict.get "primary_phone" d = Some (PDict (x :: p)) ->
     exists lines,
       format_org (PDict d) = Ok (TextArtifact (block 20 lines))
       /\ In ("Phone: " ++ Py.str (field (PDict (x :: p)) "number" PNone)) lines)
  /\ (Dict.get "primary_phone" d = None
      \/ Dict.get "primary_phone" d = Some PNone
      \/ Dict.get "primary_phone" d = Some (PDict []) ->
      exists lines,
        format_org (PDict d) = Ok (TextArtifact (block 20 lines))
        /\ In ("Phone: " ++ Py.str (field (PDict d) "phone" PNone)) lines)
  /\ (forall c s,
        Dict.get "primary_phone" d = Some (PStr (String c s)) ->
        format_org (PDict d)
        = Raise (mk_exn AttributeError "'str' object has no attribute 'get'")).
Proof.
  intros Hl. split; [|split].
  - intros x p Hp. apply (format_org_lines d _ Hl).
    unfold field at 1 2. now rewrite Hp.
  - intros Hp. apply (format_org_lines d _ Hl).
    unfold field at 1 2.
    destruct Hp as [-> | [-> | ->]]; reflexivity.
  - intros c s Hp. unfold format_org.
    change (Py.get (PDict d) "primary_phone" (PDict []))
      with (Ok (field (PDict d) "primary_phone" (PDict []))).
    cbv beta iota delta [rbind]. unfold field. rewrite Hp. reflexivity.
Qed.

Lemma phone_from_primary_or_flat_witness :
  exists lines,
    format_org (PDict [("primary_phone", PDict [("source", PStr "Owler")]);
                       ("phone", PStr "+1 555 0100")])
      = Ok (TextArtifact (block 20 lines))
    /\ In ("Phone: "
             ++ Py.str (field (PDict [("source", PStr "Owler")]) "number" PNone)) lines.
Proof.
  apply (proj1 (phone_from_primary_or_flat
                  [("primary_phone", PDict [("source", PStr "Owler")]);
                   ("phone", PStr "+1 555 0100")] eq_refl)).
  reflexivity.
Defined.

(** ** What is sent of a target *)

Lemma supplies_cleaned (person : list (string * pyval)) (k : string) :
  supplies (cleaned person) k = supplies person k.
Proof.
  unfold supplies, cleaned.
  induction person as [|[k' v] person IH]; cbn [filter existsb fst snd]; auto.
  destruct (kept v) eqn:Ev; cbn [existsb fst snd].
  - now rewrite Ev, IH.
  - now rewrite IH, andb_false_r.
Qed.

Lemma cleaned_again (person : list (string * pyval)) :
  cleaned (cleaned person) = cleaned person.
Proof.
  unfold cleaned.
  induction person as [|[k v] person IH]; cbn [filter snd]; auto.
  destruct (kept v) eqn:E; auto.
  cbn [filter snd]. now rewrite E, IH.
Qed.

Lemma cleaned_cleanable (person : list (string * pyval)) :
  cleanable (cleaned person) = true.
Proof.
  apply forallb_forall. intros kv H.
  pose proof (cleaned_kept person) as Hk. rewrite Forall_forall in Hk.
  specialize (Hk kv H). now destruct (snd kv).
Qed.

(** X4: the targets that [enrich_people] sends pass its own validation:
    when every target is accepted, each dict of [details] in the payload
    is the cleaning of the target at the same position, is already clean
    (cleaning it again gives it back) and still holds a non-blank email or
    profile URL. *)
Theorem posted_targets_identified (net : Network) (params : EnrichParams)
    (client : ApolloClient) (history : list Request) :
  forallb accepted (details params) = true ->
  exists rq sent_details,
    posted (snd (call (enrich_people net params) client history))
      = (history ++ [rq])%list
    /\ Dict.get "details" (req_json rq) = Some (PList (map PDict sent_details))
    /\ Forall2 (fun person sent => clean_person person = Ok sent)
         (details params) sent_details
    /\ Forall (fun sent => identified sent = true /\ clean_person sent = Ok sent)
         sent_details.
Proof.
  intros H.
  destruct (posted_by_call net (EnrichPeople params) client history _
              (enrich_request client params H)) as [Hp _].
  exists (mk_request BULK_MATCH_ENDPOINT
            (enrich_people_payload (map cleaned (details params)))
            (headers_for client) (timeout client)),
    (map cleaned (details params)).
  split; [exact Hp|]. split; [reflexivity|].
  rewrite forallb_forall in H. split.
  - revert H. generalize (details params). intros l.
    induction l as [|p l IH]; intros H; cbn [map]; constructor.
    + assert (accepted p = true) as Hpa by (apply H; now left).
      unfold accepted in Hpa. apply andb_prop in Hpa as [Hc _].
      now apply clean_person_ok.
    + apply IH. intros x Hx. apply H. now right.
  - apply Forall_forall. intros sent Hin.
    apply in_map_iff in Hin as (person & <- & Hin).
    specialize (H person Hin). unfold accepted in H.
    apply andb_prop in H as [_ Hi]. split.
    + unfold identified in *. now rewrite !supplies_cleaned.
    + rewrite (clean_person_ok _ (cleaned_cleanable person)).
      now rewrite cleaned_again.
Qed.

Lemma posted_targets_identified_witness :
  exists rq sent_details,
    posted (snd (call (enrich_people (unreachable "timed out")
                         (mk_enrich_params
                            [[("email", PStr NBSP);
                              ("linkedin_url", PStr "in/ann");
                              ("note", PStr "vip"); ("tags", PList [])]]))
                   sample_client []))
      = [rq]
    /\ Dict.get "details" (req_json rq) = Some (PList (map PDict sent_details))
    /\ Forall2 (fun person sent => clean_person person = Ok sent)
         [[("email", PStr NBSP); ("linkedin_url", PStr "in/ann");
           ("note", PStr "vip"); ("tags", PList [])]]
         sent_details
    /\ Forall (fun sent => identified sent = true /\ clean_person sent = Ok sent)
         sent_details.
Proof.
  apply (posted_targets_identified (unreachable "timed out")
           (mk_enrich_params
              [[("email", PStr NBSP); ("linkedin_url", PStr "in/ann");
                ("note", PStr "vip"); ("tags", PList [])]])
           sample_client []).
  reflexivity.
Defined.
